(** * Brave Search toolkit (agno/tools/bravesearch.py)

    A shallow embedding of [BraveSearchTools]: its constructor
    [__init__] and its one tool, [brave_search], together with the part
    of Python's [json] module the tool relies on ([json.dumps], and a
    reader for the text it writes).

    Conventions.
    - A Python [str] is a [string]; each character stands for the code
      point of the same number (U+0000 to U+00FF).
    - A Python [int] is a [Z].
    - A Python [dict] is an association list in insertion order, which is
      the order [json.dumps] writes the keys in.
    - Effects (log lines, calls to the Brave client) are recorded in a
      trace threaded through a small exception monad. *)

From Stdlib Require Import String Ascii ZArith NArith List Lia Bool.
From Stdlib Require Import DecimalString DecimalPos DecimalN DecimalFacts.
Import ListNotations.

Local Open Scope list_scope.
Local Open Scope string_scope.

(** ** Characters and strings *)

Definition dquote : ascii := "034"%char.
Definition backslash : ascii := "092"%char.
Definition newline : ascii := "010"%char.
Definition carriage_return : ascii := "013"%char.
Definition tab : ascii := "009"%char.
Definition backspace : ascii := "008"%char.
Definition formfeed : ascii := "012"%char.
Definition space : ascii := " "%char.

(** [s] in double quotes, for writing expected JSON text. *)
Definition quoted (s : string) : string := String dquote (s ++ String dquote "").

(** [' ' * n] *)
Fixpoint spaces (n : nat) : string :=
  match n with
  | O => ""
  | S n' => String space (spaces n')
  end.

(** [sep.join(parts)] *)
Fixpoint join (sep : string) (parts : list string) : string :=
  match parts with
  | [] => ""
  | [p] => p
  | p :: ps => p ++ sep ++ join sep ps
  end.

(** Truth value of a [str]: the empty string is false. *)
Definition str_truthy (s : string) : bool :=
  match s with
  | EmptyString => false
  | String _ _ => true
  end.

(** [repr] of an [int], which is what [json.dumps] writes for it. *)
Definition int_repr (z : Z) : string :=
  match z with
  | Z0 => "0"
  | Zpos p => NilEmpty.string_of_uint (Pos.to_uint p)
  | Zneg p => String "-" (NilEmpty.string_of_uint (Pos.to_uint p))
  end.

(** ** JSON values and [json.dumps] *)

Unset Elimination Schemes.
Inductive json : Type :=
| JNull
| JBool (b : bool)
| JInt (z : Z)
| JString (s : string)
| JArray (xs : list json)
| JObject (kvs : list (string * json)).
Set Elimination Schemes.

(** Induction over [json] that reaches the values inside arrays and
    objects. *)
Definition json_induction (P : json -> Prop)
    (Hnull : P JNull)
    (Hbool : forall b, P (JBool b))
    (Hint : forall z, P (JInt z))
    (Hstring : forall s, P (JString s))
    (Harray : forall xs, Forall P xs -> P (JArray xs))
    (Hobject : forall kvs, Forall (fun kv => P (snd kv)) kvs -> P (JObject kvs)) :
    forall v, P v :=
  fix go (v : json) : P v :=
    match v with
    | JNull => Hnull
    | JBool b => Hbool b
    | JInt z => Hint z
    | JString s => Hstring s
    | JArray xs =>
        Harray xs
          ((fix go_list (l : list json) : Forall P l :=
              match l with
              | [] => Forall_nil P
              | x :: l' => Forall_cons x (go x) (go_list l')
              end) xs)
    | JObject kvs =>
        Hobject kvs
          ((fix go_members (l : list (string * json)) : Forall (fun kv => P (snd kv)) l :=
              match l with
              | [] => Forall_nil _
              | kv :: l' => Forall_cons kv (go (snd kv)) (go_members l')
              end) kvs)
    end.

Module Json.

(** One lower-case hexadecimal digit, as ['{0:04x}'.format] writes it. *)
Definition hex_digit (n : N) : ascii :=
  match n with
  | 0 => "0" | 1 => "1" | 2 => "2" | 3 => "3" | 4 => "4"
  | 5 => "5" | 6 => "6" | 7 => "7" | 8 => "8" | 9 => "9"
  | 10 => "a" | 11 => "b" | 12 => "c" | 13 => "d" | 14 => "e"
  | _ => "f"
  end%N%char.

(** ['\\u{0:04x}'.format(n)] *)
Definition unicode_escape (n : N) : string :=
  String backslash (String "u"
    (String (hex_digit ((n / 4096) mod 16))
    (String (hex_digit ((n / 256) mod 16))
    (String (hex_digit ((n / 16) mod 16))
    (String (hex_digit (n mod 16)) ""))))).

(** The replacement [encode_basestring_ascii] makes for one character:
    the short escapes of [ESCAPE_DCT], the character itself from space
    to tilde, and a [\uXXXX] escape for everything else. *)
Definition escape_char (c : ascii) : string :=
  let n := N_of_ascii c in
  if (n =? 34)%N then String backslash (String dquote "")
  else if (n =? 92)%N then String backslash (String backslash "")
  else if (n =? 8)%N then String backslash "b"
  else if (n =? 12)%N then String backslash "f"
  else if (n =? 10)%N then String backslash "n"
  else if (n =? 13)%N then String backslash "r"
  else if (n =? 9)%N then String backslash "t"
  else if ((32 <=? n) && (n <=? 126))%N then String c ""
  else unicode_escape n.

Fixpoint escape (s : string) : string :=
  match s with
  | EmptyString => ""
  | String c s' => escape_char c ++ escape s'
  end.

(** [json.encoder.encode_basestring_ascii]; [ensure_ascii] is left at
    its default [True] by both calls of the toolkit. *)
Definition encode_basestring_ascii (s : string) : string :=
  String dquote (escape s ++ String dquote "").

(** ['\n' + _indent * _current_indent_level], or nothing without
    [indent]. *)
Definition newline_indent (indent : option nat) (level : nat) : string :=
  match indent with
  | None => ""
  | Some k => String newline (spaces (k * level))
  end.

(** Default separators: [(', ', ': ')] without [indent], [(',', ': ')]
    with it. *)
Definition item_separator (indent : option nat) : string :=
  match indent with
  | None => ", "
  | Some _ => ","
  end.

Definition key_separator : string := ": ".

(** Text placed between two items of a container whose items sit at
    [level]. *)
Definition separator (indent : option nat) (level : nat) : string :=
  item_separator indent ++ newline_indent indent level.

(** [_iterencode]: the text of [v] when it sits at nesting depth
    [level]. An empty container is written [[]] or [{}] whatever the
    indentation. *)
Fixpoint encode (indent : option nat) (level : nat) (v : json) : string :=
  match v with
  | JNull => "null"
  | JBool true => "true"
  | JBool false => "false"
  | JInt z => int_repr z
  | JString s => encode_basestring_ascii s
  | JArray [] => "[]"
  | JArray xs =>
      "[" ++ newline_indent indent (S level)
          ++ join (separator indent (S level))
                  (map (encode indent (S level)) xs)
          ++ newline_indent indent level ++ "]"
  | JObject [] => "{}"
  | JObject kvs =>
      "{" ++ newline_indent indent (S level)
          ++ join (separator indent (S level))
                  (map (fun kv => encode_basestring_ascii (fst kv)
                                    ++ key_separator
                                    ++ encode indent (S level) (snd kv)) kvs)
          ++ newline_indent indent level ++ "}"
  end.

(** [json.dumps(obj, indent=indent)] *)
Definition dumps (indent : option nat) (v : json) : string := encode indent 0 v.

(** *** Reading JSON text

    A reader for JSON text (RFC 8259), the counterpart of
    [json.loads] on the values above: it is what "valid JSON" and
    "parses into" mean below. Numbers are integers without a fraction or
    an exponent, and a [\uXXXX] escape must name a character below
    U+0100; text outside that is refused, never misread. *)

Definition is_ws (c : ascii) : bool :=
  Ascii.eqb c space || Ascii.eqb c newline
  || Ascii.eqb c carriage_return || Ascii.eqb c tab.

Fixpoint skip_ws (s : string) : string :=
  match s with
  | EmptyString => ""
  | String c s' => if is_ws c then skip_ws s' else s
  end.

Definition is_digit (c : ascii) : bool :=
  ((48 <=? N_of_ascii c) && (N_of_ascii c <=? 57))%N.

Definition hex_value (c : ascii) : option N :=
  let n := N_of_ascii c in
  if ((48 <=? n) && (n <=? 57))%N then Some (n - 48)%N
  else if ((97 <=? n) && (n <=? 102))%N then Some (n - 87)%N
  else if ((65 <=? n) && (n <=? 70))%N then Some (n - 55)%N
  else None.

Definition hex4 (h1 h2 h3 h4 : ascii) : option N :=
  match hex_value h1, hex_value h2, hex_value h3, hex_value h4 with
  | Some a, Some b, Some c, Some d => Some (a * 4096 + b * 256 + c * 16 + d)%N
  | _, _, _, _ => None
  end.

(** The character a two-character escape stands for. *)
Definition unescape (e : ascii) : option ascii :=
  if Ascii.eqb e dquote then Some dquote
  else if Ascii.eqb e backslash then Some backslash
  else if Ascii.eqb e "/" then Some "/"%char
  else if Ascii.eqb e "b" then Some backspace
  else if Ascii.eqb e "f" then Some formfeed
  else if Ascii.eqb e "n" then Some newline
  else if Ascii.eqb e "r" then Some carriage_return
  else if Ascii.eqb e "t" then Some tab
  else None.

Definition cons_char (c : ascii) (r : option (string * string))
  : option (string * string) :=
  match r with
  | Some (s, rest) => Some (String c s, rest)
  | None => None
  end.

(** The characters of a string literal after its opening quote, and the
    text after its closing quote. *)
Fixpoint scan_string (s : string) : option (string * string) :=
  match s with
  | EmptyString => None
  | String c s1 =>
      if Ascii.eqb c dquote then Some ("", s1)
      else if Ascii.eqb c backslash then
        match s1 with
        | EmptyString => None
        | String e s2 =>
            if Ascii.eqb e "u" then
              match s2 with
              | String h1 (String h2 (String h3 (String h4 s3))) =>
                  match hex4 h1 h2 h3 h4 with
                  | Some n =>
                      if (n <? 256)%N then cons_char (ascii_of_N n) (scan_string s3)
                      else None
                  | None => None
                  end
              | _ => None
              end
            else
              match unescape e with
              | Some c' => cons_char c' (scan_string s2)
              | None => None
              end
        end
      else if (N_of_ascii c <? 32)%N then None
      else cons_char c (scan_string s1)
  end.

Fixpoint span_digits (s : string) : string * string :=
  match s with
  | EmptyString => ("", "")
  | String c s' =>
      if is_digit c then
        let (ds, rest) := span_digits s' in (String c ds, rest)
      else ("", s)
  end.

(** A run of digits without a leading zero, as a number. *)
Definition scan_nat (s : string) : option (N * string) :=
  let (ds, rest) := span_digits s in
  match ds with
  | EmptyString => None
  | String c ds' =>
      if Ascii.eqb c "0" && str_truthy ds' then None
      else
        match NilEmpty.uint_of_string ds with
        | Some d => Some (N.of_uint d, rest)
        | None => None
        end
  end.

Fixpoint strip_prefix (p s : string) : option string :=
  match p, s with
  | EmptyString, _ => Some s
  | String a p', String b s' => if Ascii.eqb a b then strip_prefix p' s' else None
  | String _ _, EmptyString => None
  end.

Definition literal (word : string) (v : json) (s : string) : option (json * string) :=
  match strip_prefix word s with
  | Some rest => Some (v, rest)
  | None => None
  end.

(** [parse_value fuel s] reads one value at the front of [s], after any
    white space, and returns it with the text that follows.
    [parse_elements] reads the items of a non-empty array up to its
    closing bracket, [parse_members] the members of a non-empty object
    up to its closing brace. [fuel] bounds the nesting and the number of
    items; [loads] gives it the length of the text, which is enough for
    whatever [dumps] writes ([JsonFacts.loads_dumps]). *)
Fixpoint parse_value (fuel : nat) (s : string) : option (json * string) :=
  match fuel with
  | O => None
  | S f =>
      match skip_ws s with
      | EmptyString => None
      | String c r =>
          if Ascii.eqb c "{" then
            match skip_ws r with
            | EmptyString => None
            | String c' r' =>
                if Ascii.eqb c' "}" then Some (JObject [], r')
                else
                  match parse_members f r with
                  | Some (kvs, rest) => Some (JObject kvs, rest)
                  | None => None
                  end
            end
          else if Ascii.eqb c "[" then
            match skip_ws r with
            | EmptyString => None
            | String c' r' =>
                if Ascii.eqb c' "]" then Some (JArray [], r')
                else
                  match parse_elements f r with
                  | Some (xs, rest) => Some (JArray xs, rest)
                  | None => None
                  end
            end
          else if Ascii.eqb c dquote then
            match scan_string r with
            | Some (str, rest) => Some (JString str, rest)
            | None => None
            end
          else if Ascii.eqb c "n" then literal "ull" JNull r
          else if Ascii.eqb c "t" then literal "rue" (JBool true) r
          else if Ascii.eqb c "f" then literal "alse" (JBool false) r
          else if Ascii.eqb c "-" then
            match scan_nat r with
            | Some (n, rest) => Some (JInt (- Z.of_N n), rest)
            | None => None
            end
          else
            match scan_nat (String c r) with
            | Some (n, rest) => Some (JInt (Z.of_N n), rest)
            | None => None
            end
      end
  end

with parse_elements (fuel : nat) (s : string) : option (list json * string) :=
  match fuel with
  | O => None
  | S f =>
      match parse_value f s with
      | None => None
      | Some (x, r) =>
          match skip_ws r with
          | EmptyString => None
          | String c r' =>
              if Ascii.eqb c "," then
                match parse_elements f r' with
                | Some (xs, rest) => Some (x :: xs, rest)
                | None => None
                end
              else if Ascii.eqb c "]" then Some ([x], r')
              else None
          end
      end
  end

with parse_members (fuel : nat) (s : string) : option (list (string * json) * string) :=
  match fuel with
  | O => None
  | S f =>
      match skip_ws s with
      | EmptyString => None
      | String q r0 =>
          if Ascii.eqb q dquote then
            match scan_string r0 with
            | None => None
            | Some (k, r1) =>
                match skip_ws r1 with
                | EmptyString => None
                | String colon r2 =>
                    if Ascii.eqb colon ":" then
                      match parse_value f r2 with
                      | None => None
                      | Some (x, r3) =>
                          match skip_ws r3 with
                          | EmptyString => None
                          | String c r4 =>
                              if Ascii.eqb c "," then
                                match parse_members f r4 with
                                | Some (kvs, rest) => Some ((k, x) :: kvs, rest)
                                | None => None
                                end
                              else if Ascii.eqb c "}" then Some ([(k, x)], r4)
                              else None
                          end
                      end
                    else None
                end
            end
          else None
      end
  end.

(** The value a whole text stands for, if it is JSON: one value, with
    nothing but white space around it. *)
Definition loads (s : string) : option json :=
  match parse_value (S (String.length s)) s with
  | Some (v, rest) =>
      match skip_ws rest with
      | EmptyString => Some v
      | String _ _ => None
      end
  | None => None
  end.

End Json.

(** ** Python dictionaries, as the toolkit uses them *)

(** [d[key] = value]: an existing key keeps its place, a new key goes
    last. *)
Fixpoint dict_set (key : string) (value : json) (d : list (string * json))
  : list (string * json) :=
  match d with
  | [] => [(key, value)]
  | (k, v) :: d' =>
      if String.eqb k key then (k, value) :: d'
      else (k, v) :: dict_set key value d'
  end.

Definition dict_keys (d : list (string * json)) : list string := map fst d.

Fixpoint dict_get (key : string) (d : list (string * json)) : option json :=
  match d with
  | [] => None
  | (k, v) :: d' => if String.eqb k key then Some v else dict_get key d'
  end.

(** ** Python values of type [Optional[str]] *)

(** Truth value: [None] and the empty string are false. *)
Definition truthy (o : option string) : bool :=
  match o with
  | None => false
  | Some s => str_truthy s
  end.

(** [a or b] *)
Definition py_or (a b : option string) : option string :=
  if truthy a then a else b.

(** [str(o)], which is what an f-string field writes. *)
Definition py_str (o : option string) : string :=
  match o with
  | None => "None"
  | Some s => s
  end.

(** The value as [json.dumps] sees it. *)
Definition to_json (o : option string) : json :=
  match o with
  | None => JNull
  | Some s => JString s
  end.

(** ** Exceptions *)

Inductive exc_class : Type :=
| BraveSearchAPIError                 (* bravesearch.BraveSearchAPIError *)
| ValueError
| OtherException (name : string)      (* any other class derived from Exception *)
| SystemExiting (name : string).      (* derived from BaseException alone:
                                         KeyboardInterrupt, SystemExit, GeneratorExit *)

(** A raised exception: its class and [str(e)]. *)
Record exn : Type := mk_exn { exn_class : exc_class; exn_str : string }.

(** [isinstance(e, BraveSearchAPIError)] *)
Definition is_BraveSearchAPIError (e : exn) : bool :=
  match exn_class e with
  | BraveSearchAPIError => true
  | _ => false
  end.

(** [isinstance(e, Exception)] *)
Definition is_Exception (e : exn) : bool :=
  match exn_class e with
  | SystemExiting _ => false
  | _ => true
  end.

(** ** The toolkit *)

(** The client object [BraveSearch(api_key=..., wait_time=..., retries=...)]. *)
Record BraveSearch : Type := mk_client {
  client_api_key : option string;
  client_wait_time : Z;
  client_retries : Z
}.

(** The keyword arguments of one [brave_client.search(...)] call. *)
Record SearchCall : Type := mk_call {
  q : option string;
  count : Z;
  call_country : string;
  call_search_lang : string;
  result_filter : string
}.

Inductive outcome (A : Type) : Type :=
| Returns (a : A)
| Raises (e : exn).
Arguments Returns {A} a.
Arguments Raises {A} e.

(** What the toolkit does to the outside world. *)
Inductive event : Type :=
| LogInfo (msg : string)
| LogError (msg : string)
| NewClient (client : BraveSearch)
| ClientSearch (client : BraveSearch) (call : SearchCall).

(** Computations that append to a trace of events and return or raise. *)
Definition M (A : Type) : Type := list event -> outcome A * list event.

Definition ret {A} (a : A) : M A := fun tr => (Returns a, tr).

Definition raise {A} (e : exn) : M A := fun tr => (Raises e, tr).

Definition bind {A B} (m : M A) (k : A -> M B) : M B :=
  fun tr =>
    match m tr with
    | (Returns a, tr') => k a tr'
    | (Raises e, tr') => (Raises e, tr')
    end.

Definition emit (ev : event) : M unit := fun tr => (Returns tt, (tr ++ [ev])%list).

(** [try: body  except ... as e: handler e] *)
Definition try_except {A} (body : M A) (handler : exn -> M A) : M A :=
  fun tr =>
    match body tr with
    | (Returns a, tr') => (Returns a, tr')
    | (Raises e, tr') => handler e tr'
    end.

Declare Scope py_scope.
Delimit Scope py_scope with py.
Notation "x <- m ;; k" := (bind m (fun x => k))
  (at level 61, m at next level, right associativity) : py_scope.
Notation "m ;;; k" := (bind m (fun _ => k))
  (at level 61, right associativity) : py_scope.
Local Open Scope py_scope.

(** Modelled from the spec: [log_info] and [log_error] of
    [agno.utils.log], which is not part of the sources at hand. They
    write a line and hand nothing back. *)
Definition log_info (msg : string) : M unit := emit (LogInfo msg).
Definition log_error (msg : string) : M unit := emit (LogError msg).

(** [BraveSearch(api_key=..., wait_time=..., retries=...)] *)
Definition new_BraveSearch (api_key : option string) (wait_time retries : Z)
  : M BraveSearch :=
  let c := mk_client api_key wait_time retries in
  emit (NewClient c) ;;; ret c.

(** [os.getenv] over an environment. *)
Definition getenv (environ : string -> option string) (name : string)
  : option string := environ name.

(** The attributes of a [BraveSearchTools] object. [name] and [tools]
    are what [Toolkit.__init__] is given. *)
Record BraveSearchTools : Type := mk_tools {
  api_key : option string;
  fixed_max_results : option Z;
  fixed_language : option string;
  brave_client : BraveSearch;
  name : string;
  tools : list string
}.

(** Modelled from the spec: [Toolkit.__init__] of [agno.tools], which is
    not part of the sources at hand. It registers the tools it is given
    under the toolkit's name. *)
Definition Toolkit_init (self_api_key : option string)
    (self_fixed_max_results : option Z) (self_fixed_language : option string)
    (self_brave_client : BraveSearch) (name : string) (tools : list string)
  : M BraveSearchTools :=
  ret (mk_tools self_api_key self_fixed_max_results self_fixed_language
                self_brave_client name tools).

(** [BraveSearchTools.__init__]. [environ] is the process environment;
    the defaults are [api_key=None], [fixed_max_results=None],
    [fixed_language=None], [wait_time=5], [retries=3]. The extra keyword
    arguments only travel on to [Toolkit.__init__] and are left out. *)
Definition __init__ (environ : string -> option string)
    (api_key : option string) (fixed_max_results : option Z)
    (fixed_language : option string) (wait_time retries : Z)
  : M BraveSearchTools :=
  let self_api_key := py_or api_key (getenv environ "BRAVE_API_KEY") in
  if negb (truthy self_api_key) then
    raise (mk_exn ValueError
      "BRAVE_API_KEY is required. Please set the BRAVE_API_KEY environment variable.")
  else
    let self_fixed_max_results := fixed_max_results in
    let self_fixed_language := fixed_language in
    self_brave_client <- new_BraveSearch self_api_key wait_time retries ;;
    let tools := [] in
    let tools := (tools ++ ["brave_search"])%list in
    Toolkit_init self_api_key self_fixed_max_results self_fixed_language
                 self_brave_client "brave_search" tools.

(** The client calls recorded in a trace. *)
Definition client_calls (tr : list event) : list SearchCall :=
  flat_map (fun ev => match ev with ClientSearch _ c => [c] | _ => [] end) tr.

(** The clients created in a trace. *)
Definition clients_created (tr : list event) : list BraveSearch :=
  flat_map (fun ev => match ev with NewClient c => [c] | _ => [] end) tr.

(** ** The search tool *)

Section Toolkit.

(** The type of [result.url] in the client library, and [str] on it. *)
Variable Url : Type.
Variable url_str : Url -> string.

(** What the client library returns from [search]: a response whose
    [web] section may be missing, holding a list of results. *)
Record WebResult : Type := mk_result {
  title : string;
  url : Url;
  description : string
}.

Record WebSearch : Type := mk_web { results : option (list WebResult) }.

Record SearchResponse : Type := mk_response { web : option WebSearch }.

(** How the client answers a call: the library and the network behind
    it are outside the toolkit, so any answer is possible. [None] is a
    response that is [None]. *)
Variable client_search : BraveSearch -> SearchCall -> outcome (option SearchResponse).

(** [client.search(q=..., count=..., ...)] *)
Definition search (client : BraveSearch) (call : SearchCall)
  : M (option SearchResponse) :=
  fun tr => (client_search client call, (tr ++ [ClientSearch client call])%list).

(** The dictionary built for one provider result. *)
Definition web_result (result : WebResult) : json :=
  JObject [("title", JString (title result));
           ("url", JString (url_str (url result)));
           ("description", JString (description result))].

(** The [for] loop over the provider's results: each dictionary is
    appended to [web_results]. *)
Definition collect (rs : list WebResult) : list json :=
  fold_left (fun web_results result => (web_results ++ [web_result result])%list) rs [].

(** [search_results.web.results] when the test
    [search_results and search_results.web and search_results.web.results]
    passes. Objects of the library are true, [None] and the empty list
    are false. *)
Definition nonempty_results (search_results : option SearchResponse)
  : option (list WebResult) :=
  match search_results with
  | None => None
  | Some r =>
      match web r with
      | None => None
      | Some w =>
          match results w with
          | None => None
          | Some [] => None
          | Some (x :: xs) => Some (x :: xs)
          end
      end
  end.

(** [len(l)] *)
Definition len {A} (l : list A) : Z := Z.of_nat (List.length l).

(** [BraveSearchTools.brave_search] *)
Definition brave_search (self : BraveSearchTools) (query : option string)
    (max_results : Z) (country : string) (search_lang : string) : M string :=
  let final_max_results :=
    match fixed_max_results self with
    | Some n => n
    | None => max_results
    end in
  let final_search_lang :=
    match fixed_language self with
    | Some l => l
    | None => search_lang
    end in
  if negb (truthy query) then
    ret (Json.dumps None
           (JObject [("error", JString "Please provide a query to search for")]))
  else
    try_except
      (log_info ("Searching Brave for: " ++ py_str query) ;;;
       search_results <- search (brave_client self)
                           (mk_call query final_max_results country
                                    final_search_lang "web") ;;
       let filtered_results :=
         [("web_results", JArray []);
          ("query", to_json query);
          ("total_results", JInt 0)] in
       let filtered_results :=
         match nonempty_results search_results with
         | Some rs =>
             let web_results := collect rs in
             let filtered_results :=
               dict_set "web_results" (JArray web_results) filtered_results in
             dict_set "total_results" (JInt (len web_results)) filtered_results
         | None => filtered_results
         end in
       ret (Json.dumps (Some 2%nat) (JObject filtered_results)))
      (fun e =>
         if is_BraveSearchAPIError e then
           log_error ("Brave Search API error for query '" ++ py_str query
                        ++ "': " ++ exn_str e) ;;;
           ret (Json.dumps None
                  (JObject [("error",
                             JString ("Brave Search API error: " ++ exn_str e))]))
         else if is_Exception e then
           log_error ("An unexpected error occurred during Brave search for query '"
                        ++ py_str query ++ "': " ++ exn_str e) ;;;
           ret (Json.dumps None
                  (JObject [("error",
                             JString ("An unexpected error occurred: " ++ exn_str e))]))
         else raise e).

(** The defaults of [brave_search]: [max_results=5], [country="US"],
    [search_lang="en"]. *)
Definition default_max_results : Z := 5.
Definition default_country : string := "US".
Definition default_search_lang : string := "en".

(** A call of [brave_search] in which an argument may be left out
    ([None]) and then takes its default. *)
Definition call_brave_search (self : BraveSearchTools) (query : option string)
    (max_results : option Z) (country search_lang : option string) : M string :=
  brave_search self query
    (match max_results with Some n => n | None => default_max_results end)
    (match country with Some c => c | None => default_country end)
    (match search_lang with Some l => l | None => default_search_lang end).

End Toolkit.

Arguments mk_result {Url} title url description.
Arguments mk_web {Url} results.
Arguments mk_response {Url} web.
Arguments title {Url} w.
Arguments url {Url} w.
Arguments description {Url} w.
Arguments results {Url} w.
Arguments web {Url} s.
Arguments nonempty_results {Url} search_results.
Arguments collect {Url} url_str rs.
Arguments web_result {Url} url_str result.
Arguments search {Url} client_search client call _.
Arguments brave_search {Url} url_str client_search self query max_results
  country search_lang _.
Arguments call_brave_search {Url} url_str client_search self query max_results
  country search_lang _.

(** ** The vocabulary of the specification *)

(** EffectiveParams: what the client is asked, after the fixed settings
    of the toolkit have overridden the request. *)
Definition effective_call (self : BraveSearchTools) (query : option string)
    (max_results : Z) (country search_lang : string) : SearchCall :=
  {| q := query;
     count := match fixed_max_results self with
              | Some fixed => fixed
              | None => max_results
              end;
     call_country := country;
     call_search_lang := match fixed_language self with
                         | Some fixed => fixed
                         | None => search_lang
                         end;
     result_filter := "web" |}.

(** The web results a response carries: none when the response, its
    web section or the list in it is missing. *)
Definition provider_results {Url} (response : option (SearchResponse Url))
  : list (WebResult Url) :=
  match response with
  | Some {| web := Some {| results := Some rs |} |} => rs
  | _ => []
  end.

(** SearchResultItem *)
Definition SearchResultItem (title url description : string) : json :=
  JObject [("title", JString title); ("url", JString url);
           ("description", JString description)].

(** SearchResponsePayload, on success and on failure. *)
Definition success_payload (query : string) (items : list json) : json :=
  JObject [("web_results", JArray items);
           ("query", JString query);
           ("total_results", JInt (Z.of_nat (List.length items)))].

Definition error_payload (message : string) : json :=
  JObject [("error", JString message)].

(** The two shapes a payload can have: exactly the three keys of a
    success, or exactly the one key of a failure. *)
Definition success_shape (v : json) : bool :=
  match v with
  | JObject kvs =>
      Nat.eqb (List.length kvs) 3
      && match dict_get "web_results" kvs with Some (JArray _) => true | _ => false end
      && match dict_get "query" kvs with Some (JString _) => true | _ => false end
      && match dict_get "total_results" kvs with Some (JInt _) => true | _ => false end
  | _ => false
  end.

Definition error_shape (v : json) : bool :=
  match v with
  | JObject kvs =>
      Nat.eqb (List.length kvs) 1
      && match dict_get "error" kvs with Some (JString _) => true | _ => false end
  | _ => false
  end.

(** The text [{"error": "<message>"}], written out. *)
Definition error_text (message : string) : string :=
  "{" ++ quoted "error" ++ ": " ++ quoted message ++ "}".

(** Strings that JSON writes as they are: printable ASCII without the
    double quote and the backslash. *)
Definition plain_char (c : ascii) : bool :=
  let n := N_of_ascii c in
  ((32 <=? n) && (n <=? 126) && negb (n =? 34) && negb (n =? 92))%N.

Fixpoint plain (s : string) : bool :=
  match s with
  | EmptyString => true
  | String c s' => plain_char c && plain s'
  end.

(** A client answer the toolkit is written for: a response, or an
    error of a class derived from [Exception]. *)
Definition ordinary {A} (o : outcome A) : Prop :=
  match o with
  | Returns _ => True
  | Raises e => is_Exception e = true
  end.

(** The API key construction settles on: the argument when it is a
    non-empty string, else the environment variable. *)
Definition resolved_key (environ : string -> option string)
    (api_key : option string) : option string :=
  match api_key with
  | Some (String c k) => Some (String c k)
  | _ => environ "BRAVE_API_KEY"
  end.

(** ** Sample data for concrete runs *)

(** [str] on a url that is kept as its text. *)
Definition url_text (u : string) : string := u.

Definition sample_tools : BraveSearchTools :=
  mk_tools (Some "secret") None None (mk_client (Some "secret") 5 3)
           "brave_search" ["brave_search"].

(** A toolkit built with [fixed_max_results=0] and [fixed_language=""]. *)
Definition falsy_tools : BraveSearchTools :=
  mk_tools (Some "secret") (Some 0%Z) (Some "") (mk_client (Some "secret") 5 3)
           "brave_search" ["brave_search"].

Definition sample_response : option (SearchResponse string) :=
  Some (mk_response (Some (mk_web (Some
    [mk_result "Rocq" "https://rocq-prover.org/" "A proof assistant";
     mk_result "Brave" "https://brave.com/" "A browser"])))).

Definition sample_payload : json :=
  JObject
    [("web_results",
      JArray [SearchResultItem "Rocq" "https://rocq-prover.org/" "A proof assistant";
              SearchResultItem "Brave" "https://brave.com/" "A browser"]);
     ("query", JString "rocq");
     ("total_results", JInt 2)].

(** A client that answers every call with [response]. *)
Definition answers (response : option (SearchResponse string))
  : BraveSearch -> SearchCall -> outcome (option (SearchResponse string)) :=
  fun _ _ => Returns response.

(** A client that raises [e] on every call. *)
Definition fails (e : exn)
  : BraveSearch -> SearchCall -> outcome (option (SearchResponse string)) :=
  fun _ _ => Raises e.

(** ** Callers and observations *)

(** A caller that builds the toolkit and runs one search with it. *)
Definition construct_and_search {Url : Type} (url_str : Url -> string)
    (client_search : BraveSearch -> SearchCall -> outcome (option (SearchResponse Url)))
    (environ : string -> option string) (api_key : option string)
    (fixed_max_results : option Z) (fixed_language : option string)
    (wait_time retries : Z)
    (query : option string) (max_results : Z) (country search_lang : string)
  : M string :=
  self <- __init__ environ api_key fixed_max_results fixed_language wait_time retries ;;
  brave_search url_str client_search self query max_results country search_lang.

(** The searches recorded in a trace, each with the client that ran it. *)
Definition searches (tr : list event) : list (BraveSearch * SearchCall) :=
  flat_map (fun ev => match ev with ClientSearch c call => [(c, call)] | _ => [] end) tr.

(** The message of the [ValueError] raised without a key. *)
Definition missing_key_message : string :=
  "BRAVE_API_KEY is required. Please set the BRAVE_API_KEY environment variable.".

(** Characters from space to tilde. *)
Definition printable (c : ascii) : bool :=
  ((32 <=? N_of_ascii c) && (N_of_ascii c <=? 126))%N.

(** The characters [json.dumps] may write: printable ones, and the line
    feed when it indents. *)
Definition text_char (indent : option nat) (c : ascii) : bool :=
  printable c
  || match indent with
     | Some _ => Ascii.eqb c newline
     | None => false
     end.

Fixpoint string_forall (p : ascii -> bool) (s : string) : bool :=
  match s with
  | EmptyString => true
  | String c s' => p c && string_forall p s'
  end.


(** An environment whose [BRAVE_API_KEY] is set to the empty string, and
    one where it holds a key. *)
Definition empty_environ : string -> option string :=
  fun name => if String.eqb name "BRAVE_API_KEY" then Some "" else None.

Definition sample_environ : string -> option string :=
  fun name => if String.eqb name "BRAVE_API_KEY" then Some "from-env" else None.

(** The toolkit [BraveSearchTools(fixed_max_results=3, fixed_language="fr",
    wait_time=10, retries=2)] built in [sample_environ]. *)
Definition environ_tools : BraveSearchTools :=
  mk_tools (Some "from-env") (Some 3%Z) (Some "fr")
           (mk_client (Some "from-env") 10 2) "brave_search" ["brave_search"].

(** * Facts about strings and JSON text *)

Lemma append_assoc (a b c : string) : (a ++ b) ++ c = a ++ (b ++ c).
Proof. induction a as [|x a IH]; simpl; [reflexivity | now rewrite IH]. Qed.

Lemma append_nil_r (a : string) : a ++ "" = a.
Proof. induction a as [|x a IH]; simpl; [reflexivity | now rewrite IH]. Qed.

Lemma length_append (a b : string) :
  String.length (a ++ b) = (String.length a + String.length b)%nat.
Proof. induction a as [|x a IH]; simpl; [reflexivity | now rewrite IH]. Qed.

Module JsonFacts.
Import Json.

Definition blank (ws : string) : Prop := skip_ws ws = "".

Definition no_digit_ahead (rest : string) : Prop :=
  match rest with
  | EmptyString => True
  | String c _ => is_digit c = false
  end.

(** Characters a value can start with. *)
Definition starts_value (c : ascii) : bool :=
  is_digit c || Ascii.eqb c "-" || Ascii.eqb c dquote || Ascii.eqb c "{"
  || Ascii.eqb c "[" || Ascii.eqb c "n" || Ascii.eqb c "t" || Ascii.eqb c "f".

(** [v] is read back from its text, whatever the indentation and the
    text after it. *)
Definition reads (v : json) : Prop :=
  forall indent level fuel rest,
    (String.length (encode indent level v) <= fuel)%nat ->
    no_digit_ahead rest ->
    parse_value fuel (encode indent level v ++ rest) = Some (v, rest).

Definition member_text (indent : option nat) (level : nat) (kv : string * json) : string :=
  encode_basestring_ascii (fst kv) ++ key_separator ++ encode indent level (snd kv).

(** *** Strings *)

Lemma scan_escape_char (c : ascii) (t : string) :
  scan_string (escape_char c ++ t) = cons_char c (scan_string t).
Proof.
  destruct c as [[] [] [] [] [] [] [] []]; reflexivity.
Qed.

Lemma scan_escape (s rest : string) :
  scan_string (escape s ++ String dquote rest) = Some (s, rest).
Proof.
  induction s as [|c s IH]; simpl.
  - reflexivity.
  - rewrite append_assoc, scan_escape_char, IH. reflexivity.
Qed.

(** *** White space *)

Lemma skip_ws_blank (ws t : string) : blank ws -> skip_ws (ws ++ t) = skip_ws t.
Proof.
  unfold blank. induction ws as [|c ws IH]; simpl; intros H.
  - reflexivity.
  - destruct (is_ws c); [auto | discriminate].
Qed.

Lemma blank_spaces (n : nat) : blank (spaces n).
Proof. unfold blank. induction n; simpl; auto. Qed.

Lemma blank_newline_indent (indent : option nat) (level : nat) :
  blank (newline_indent indent level).
Proof.
  destruct indent as [k|]; unfold blank; simpl; [apply blank_spaces | reflexivity].
Qed.

Lemma skip_ws_idem (s : string) : skip_ws (skip_ws s) = skip_ws s.
Proof.
  induction s as [|c s IH]; simpl; [reflexivity|].
  destruct (is_ws c) eqn:E; [exact IH | simpl; now rewrite E].
Qed.

Lemma parse_value_skip_ws (fuel : nat) (s : string) :
  parse_value fuel (skip_ws s) = parse_value fuel s.
Proof. destruct fuel; simpl; [reflexivity | now rewrite skip_ws_idem]. Qed.

Lemma parse_members_skip_ws (fuel : nat) (s : string) :
  parse_members fuel (skip_ws s) = parse_members fuel s.
Proof. destruct fuel; simpl; [reflexivity | now rewrite skip_ws_idem]. Qed.

Lemma parse_elements_skip_ws (fuel : nat) (s : string) :
  parse_elements fuel (skip_ws s) = parse_elements fuel s.
Proof. destruct fuel; simpl; [reflexivity | now rewrite parse_value_skip_ws]. Qed.

(** *** Numbers *)

Lemma span_digits_uint (d : Decimal.uint) (rest : string) :
  no_digit_ahead rest ->
  span_digits (NilEmpty.string_of_uint d ++ rest) = (NilEmpty.string_of_uint d, rest).
Proof.
  intros H. induction d; simpl; try (rewrite IHd; reflexivity).
  destruct rest as [|c r]; simpl in *; [reflexivity | now rewrite H].
Qed.

Lemma to_uint_unorm (p : positive) : Decimal.unorm (Pos.to_uint p) = Pos.to_uint p.
Proof.
  rewrite <- DecimalPos.Unsigned.to_of, DecimalPos.Unsigned.of_to. reflexivity.
Qed.

Lemma to_uint_no_leading_zero (p : positive) (d : Decimal.uint) :
  Pos.to_uint p <> Decimal.D0 d.
Proof.
  intros E. pose proof (to_uint_unorm p) as U. rewrite E in U.
  unfold Decimal.unorm in U. rewrite nzhead_D0 in U.
  destruct (Decimal.nzhead d) eqn:Hd;
    try (rewrite <- Hd in U; exact (nzhead_nonzero _ _ U)).
  injection U as U. subst d. exact (Unsigned.to_uint_nonzero p E).
Qed.

Lemma scan_nat_uint (d : Decimal.uint) (rest : string) :
  d <> Decimal.Nil -> (forall d', d = Decimal.D0 d' -> d' = Decimal.Nil) ->
  no_digit_ahead rest ->
  scan_nat (NilEmpty.string_of_uint d ++ rest) = Some (N.of_uint d, rest).
Proof.
  intros Hnil Hzero H. unfold scan_nat. rewrite span_digits_uint by exact H.
  pose proof (NilEmpty.usu d) as U.
  destruct (NilEmpty.string_of_uint d) as [|c ds] eqn:E.
  - destruct d; simpl in E; congruence.
  - assert (Ascii.eqb c "0" && str_truthy ds = false) as ->.
    { destruct d; simpl in E; try congruence;
        try (injection E as <- _; reflexivity).
      rewrite (Hzero d eq_refl) in E. injection E as <- <-. reflexivity. }
    rewrite U. reflexivity.
Qed.

Lemma scan_nat_pos (p : positive) (rest : string) :
  no_digit_ahead rest ->
  scan_nat (NilEmpty.string_of_uint (Pos.to_uint p) ++ rest) = Some (N.pos p, rest).
Proof.
  intros H. rewrite scan_nat_uint.
  - unfold N.of_uint. now rewrite DecimalPos.Unsigned.of_to.
  - apply Unsigned.to_uint_nonnil.
  - intros d' E. exfalso. exact (to_uint_no_leading_zero p d' E).
  - exact H.
Qed.

(** The first character of a number's digits. *)
Lemma uint_head (p : positive) :
  exists c t, NilEmpty.string_of_uint (Pos.to_uint p) = String c t /\ is_digit c = true.
Proof.
  pose proof (Unsigned.to_uint_nonnil p) as NN.
  destruct (Pos.to_uint p); try congruence; simpl; eauto.
Qed.

Lemma starts_value_facts (c : ascii) :
  starts_value c = true ->
  is_ws c = false /\ Ascii.eqb c "]" = false /\ Ascii.eqb c "}" = false.
Proof.
  destruct c as [[] [] [] [] [] [] [] []]; cbv; intros H;
    try discriminate H; repeat split.
Qed.

Lemma parse_value_digit (f : nat) (c : ascii) (r : string) :
  is_digit c = true ->
  parse_value (S f) (String c r) =
  match scan_nat (String c r) with
  | Some (n, rest) => Some (JInt (Z.of_N n), rest)
  | None => None
  end.
Proof.
  destruct c as [[] [] [] [] [] [] [] []]; intros H;
    try discriminate H; reflexivity.
Qed.

Lemma encode_head (indent : option nat) (level : nat) (v : json) :
  exists c t, encode indent level v = String c t /\ starts_value c = true.
Proof.
  destruct v as [|[]|[|p|p]|s|[|x xs]|[|kv kvs]]; simpl;
    try (do 2 eexists; split; reflexivity).
  destruct (uint_head p) as (c & t & -> & Hc).
  exists c, t. split; [reflexivity|]. unfold starts_value. now rewrite Hc.
Qed.

Lemma skip_ws_encode (indent : option nat) (level : nat) (v : json) (rest : string) :
  skip_ws (encode indent level v ++ rest) = encode indent level v ++ rest.
Proof.
  destruct (encode_head indent level v) as (c & t & -> & Hc).
  apply starts_value_facts in Hc as (Hws & _). simpl. now rewrite Hws.
Qed.

(** *** Values *)

Lemma parse_value_blank (fuel : nat) (ws s : string) :
  blank ws -> parse_value fuel (ws ++ s) = parse_value fuel s.
Proof.
  intros H. now rewrite <- parse_value_skip_ws, skip_ws_blank, parse_value_skip_ws.
Qed.

Lemma parse_elements_blank (fuel : nat) (ws s : string) :
  blank ws -> parse_elements fuel (ws ++ s) = parse_elements fuel s.
Proof.
  intros H. now rewrite <- parse_elements_skip_ws, skip_ws_blank, parse_elements_skip_ws.
Qed.

Lemma parse_members_blank (fuel : nat) (ws s : string) :
  blank ws -> parse_members fuel (ws ++ s) = parse_members fuel s.
Proof.
  intros H. now rewrite <- parse_members_skip_ws, skip_ws_blank, parse_members_skip_ws.
Qed.

Lemma parse_elements_S (f : nat) (s : string) :
  parse_elements (S f) s =
  match parse_value f s with
  | None => None
  | Some (x, r) =>
      match skip_ws r with
      | EmptyString => None
      | String c r' =>
          if Ascii.eqb c "," then
            match parse_elements f r' with
            | Some (xs, rest) => Some (x :: xs, rest)
            | None => None
            end
          else if Ascii.eqb c "]" then Some ([x], r')
          else None
      end
  end.
Proof. reflexivity. Qed.

Lemma parse_members_S (f : nat) (r0 : string) :
  parse_members (S f) (String dquote r0) =
  match scan_string r0 with
  | None => None
  | Some (k, r1) =>
      match skip_ws r1 with
      | EmptyString => None
      | String colon r2 =>
          if Ascii.eqb colon ":" then
            match parse_value f r2 with
            | None => None
            | Some (x, r3) =>
                match skip_ws r3 with
                | EmptyString => None
                | String c r4 =>
                    if Ascii.eqb c "," then
                      match parse_members f r4 with
                      | Some (kvs, rest) => Some ((k, x) :: kvs, rest)
                      | None => None
                      end
                    else if Ascii.eqb c "}" then Some ([(k, x)], r4)
                    else None
                end
            end
          else None
      end
  end.
Proof. reflexivity. Qed.

Lemma parse_value_array (f : nat) (r : string) :
  parse_value (S f) (String "[" r) =
  match skip_ws r with
  | EmptyString => None
  | String c' r' =>
      if Ascii.eqb c' "]" then Some (JArray [], r')
      else
        match parse_elements f r with
        | Some (xs, rest) => Some (JArray xs, rest)
        | None => None
        end
  end.
Proof. reflexivity. Qed.

Lemma parse_value_object (f : nat) (r : string) :
  parse_value (S f) (String "{" r) =
  match skip_ws r with
  | EmptyString => None
  | String c' r' =>
      if Ascii.eqb c' "}" then Some (JObject [], r')
      else
        match parse_members f r with
        | Some (kvs, rest) => Some (JObject kvs, rest)
        | None => None
        end
  end.
Proof. reflexivity. Qed.

Lemma encode_length_pos (indent : option nat) (level : nat) (v : json) :
  (1 <= String.length (encode indent level v))%nat.
Proof.
  destruct (encode_head indent level v) as (c & t & -> & _). simpl. lia.
Qed.

Lemma blank_no_digit (ws : string) (c : ascii) (t : string) :
  blank ws -> is_digit c = false -> no_digit_ahead (ws ++ String c t).
Proof.
  unfold blank. destruct ws as [|a ws]; simpl; intros H Hc; [exact Hc|].
  destruct a as [[] [] [] [] [] [] [] []]; try discriminate H; reflexivity.
Qed.

Lemma separator_shape (indent : option nat) (level : nat) :
  exists ws, separator indent level = String "," ws /\ blank ws.
Proof.
  destruct indent as [k|]; unfold separator; simpl.
  - eexists; split; [reflexivity|]. apply (blank_newline_indent (Some k)).
  - eexists; split; reflexivity.
Qed.

Lemma separator_length (indent : option nat) (level : nat) :
  (1 <= String.length (separator indent level))%nat.
Proof.
  destruct (separator_shape indent level) as (ws & -> & _). simpl. lia.
Qed.

Lemma reads_elements (indent : option nat) (level : nat) (xs : list json) :
  Forall reads xs -> xs <> [] ->
  forall fuel ws close rest,
    blank ws -> blank close ->
    (String.length (join (separator indent level) (map (encode indent level) xs))
       < fuel)%nat ->
    parse_elements fuel
      (ws ++ join (separator indent level) (map (encode indent level) xs)
          ++ close ++ String "]" rest)
    = Some (xs, rest).
Proof.
  induction 1 as [|x l Hx Hl IH]; intros Hne fuel ws close rest Hws Hclose Hfuel;
    [congruence|].
  destruct fuel as [|f]; [lia|].
  rewrite parse_elements_S, parse_value_blank by exact Hws.
  destruct l as [|y ys].
  - cbn [map join] in *.
    rewrite Hx; [| lia | apply blank_no_digit; [exact Hclose | reflexivity]].
    rewrite skip_ws_blank by exact Hclose. reflexivity.
  - change (join (separator indent level) (map (encode indent level) (x :: y :: ys)))
      with (encode indent level x ++ separator indent level
              ++ join (separator indent level) (map (encode indent level) (y :: ys)))
      in *.
    set (J := join (separator indent level) (map (encode indent level) (y :: ys))) in *.
    rewrite !length_append in Hfuel.
    pose proof (separator_length indent level) as Hsep.
    destruct (separator_shape indent level) as (ws' & Esep & Hws').
    rewrite Esep, !append_assoc.
    rewrite Hx; [| lia | reflexivity].
    change (skip_ws (String "," ws' ++ J ++ close ++ String "]" rest))
      with (String "," (ws' ++ J ++ close ++ String "]" rest)).
    change (Ascii.eqb "," ",") with true. cbv iota.
    subst J. rewrite IH; [reflexivity | discriminate | exact Hws' | exact Hclose | lia].
Qed.

Lemma parse_member (indent : option nat) (level f : nat) (k : string) (x : json)
    (tail : string) :
  reads x -> no_digit_ahead tail ->
  (String.length (member_text indent level (k, x)) <= f)%nat ->
  parse_members (S f) (member_text indent level (k, x) ++ tail) =
  match skip_ws tail with
  | EmptyString => None
  | String c r4 =>
      if Ascii.eqb c "," then
        match parse_members f r4 with
        | Some (kvs, rest) => Some ((k, x) :: kvs, rest)
        | None => None
        end
      else if Ascii.eqb c "}" then Some ([(k, x)], r4)
      else None
  end.
Proof.
  intros Hx Htail Hlen. unfold member_text, encode_basestring_ascii in *.
  cbn [fst snd] in *.
  change (String dquote (escape k ++ String dquote "")
            ++ key_separator ++ encode indent level x)
    with (String dquote ((escape k ++ String dquote "")
            ++ String ":" (String " " (encode indent level x)))) in *.
  change (String dquote ((escape k ++ String dquote "")
            ++ String ":" (String " " (encode indent level x))) ++ tail)
    with (String dquote (((escape k ++ String dquote "")
            ++ String ":" (String " " (encode indent level x))) ++ tail)).
  rewrite parse_members_S, !append_assoc.
  change (String dquote "" ++ String ":" (String " " (encode indent level x)) ++ tail)
    with (String dquote (String ":" (" " ++ encode indent level x ++ tail))).
  rewrite scan_escape.
  change (skip_ws (String ":" (" " ++ encode indent level x ++ tail)))
    with (String ":" (" " ++ encode indent level x ++ tail)).
  change (Ascii.eqb ":" ":") with true. cbv iota.
  rewrite (parse_value_blank f " ") by reflexivity.
  rewrite Hx; [reflexivity | | exact Htail].
  simpl in Hlen. rewrite !length_append in Hlen. simpl in Hlen. lia.
Qed.

Lemma member_text_length (indent : option nat) (level : nat) (kv : string * json) :
  (1 <= String.length (member_text indent level kv))%nat.
Proof. unfold member_text, encode_basestring_ascii. simpl. lia. Qed.

Lemma reads_members (indent : option nat) (level : nat) (kvs : list (string * json)) :
  Forall (fun kv => reads (snd kv)) kvs -> kvs <> [] ->
  forall fuel ws close rest,
    blank ws -> blank close ->
    (String.length (join (separator indent level) (map (member_text indent level) kvs))
       < fuel)%nat ->
    parse_members fuel
      (ws ++ join (separator indent level) (map (member_text indent level) kvs)
          ++ close ++ String "}" rest)
    = Some (kvs, rest).
Proof.
  induction 1 as [|[k x] l Hx Hl IH]; intros Hne fuel ws close rest Hws Hclose Hfuel;
    [congruence|].
  destruct fuel as [|f]; [lia|].
  rewrite parse_members_blank by exact Hws.
  simpl in Hx.
  destruct l as [|y ys].
  - cbn [map join] in *.
    rewrite parse_member;
      [| exact Hx | apply blank_no_digit; [exact Hclose | reflexivity] | lia].
    rewrite skip_ws_blank by exact Hclose. reflexivity.
  - change (join (separator indent level) (map (member_text indent level) ((k, x) :: y :: ys)))
      with (member_text indent level (k, x) ++ separator indent level
              ++ join (separator indent level) (map (member_text indent level) (y :: ys)))
      in *.
    set (J := join (separator indent level) (map (member_text indent level) (y :: ys))) in *.
    rewrite !length_append in Hfuel.
    pose proof (separator_length indent level) as Hsep.
    destruct (separator_shape indent level) as (ws' & Esep & Hws').
    rewrite Esep, !append_assoc.
    rewrite parse_member; [| exact Hx | reflexivity | lia].
    change (skip_ws (String "," ws' ++ J ++ close ++ String "}" rest))
      with (String "," (ws' ++ J ++ close ++ String "}" rest)).
    change (Ascii.eqb "," ",") with true. cbv iota.
    subst J. rewrite IH; [reflexivity | discriminate | exact Hws' | exact Hclose | lia].
Qed.

Lemma join_head_value (indent : option nat) (level : nat) (sep : string)
    (x : json) (xs : list json) (tail : string) :
  exists c t,
    join sep (map (encode indent level) (x :: xs)) ++ tail = String c t
    /\ starts_value c = true.
Proof.
  destruct (encode_head indent level x) as (c & t & E & Hc).
  destruct xs as [|y ys]; cbn [map join]; rewrite E; simpl; eauto.
Qed.

Lemma join_head_member (indent : option nat) (level : nat) (sep : string)
    (kv : string * json) (kvs : list (string * json)) (tail : string) :
  exists t,
    join sep (map (member_text indent level) (kv :: kvs)) ++ tail = String dquote t.
Proof.
  destruct kvs as [|y ys]; cbn [map join]; unfold member_text, encode_basestring_ascii;
    simpl; eauto.
Qed.

Lemma encode_array_cons (indent : option nat) (level : nat) (x : json) (xs : list json) :
  encode indent level (JArray (x :: xs)) =
  String "[" (newline_indent indent (S level)
     ++ join (separator indent (S level)) (map (encode indent (S level)) (x :: xs))
     ++ newline_indent indent level ++ "]").
Proof. reflexivity. Qed.

Lemma encode_object_cons (indent : option nat) (level : nat)
    (kv : string * json) (kvs : list (string * json)) :
  encode indent level (JObject (kv :: kvs)) =
  String "{" (newline_indent indent (S level)
     ++ join (separator indent (S level)) (map (member_text indent (S level)) (kv :: kvs))
     ++ newline_indent indent level ++ "}").
Proof. reflexivity. Qed.

Lemma reads_all (v : json) : reads v.
Proof.
  induction v as [|b|z|s|xs IH|kvs IH] using json_induction; intros indent level fuel rest Hfuel Hrest.
  - destruct fuel as [|f]; [simpl in Hfuel; lia | reflexivity].
  - destruct fuel as [|f]; [destruct b; simpl in Hfuel; lia | destruct b; reflexivity].
  - destruct fuel as [|f]; [pose proof (encode_length_pos indent level (JInt z)); lia|].
    destruct z as [|p|p]; cbn [encode int_repr].
    + change ("0" ++ rest) with (String "0" rest).
      rewrite parse_value_digit by reflexivity.
      change (String "0" rest)
        with (NilEmpty.string_of_uint (Decimal.D0 Decimal.Nil) ++ rest).
      rewrite scan_nat_uint; [reflexivity | discriminate | | exact Hrest].
      intros d' E. injection E as E. now symmetry.
    + destruct (uint_head p) as (c & t & E & Hc).
      pose proof (scan_nat_pos p rest Hrest) as Hscan.
      rewrite E in *. cbn [append] in *.
      rewrite parse_value_digit by exact Hc. rewrite Hscan. reflexivity.
    + change (parse_value (S f)
                (String "-" (NilEmpty.string_of_uint (Pos.to_uint p)) ++ rest))
        with (match scan_nat (NilEmpty.string_of_uint (Pos.to_uint p) ++ rest) with
              | Some (n, rest) => Some (JInt (- Z.of_N n), rest)
              | None => None
              end).
      rewrite scan_nat_pos by exact Hrest. reflexivity.
  - destruct fuel as [|f]; [simpl in Hfuel; lia|].
    unfold encode, encode_basestring_ascii.
    change (parse_value (S f) (String dquote (escape s ++ String dquote "") ++ rest))
      with (match scan_string ((escape s ++ String dquote "") ++ rest) with
            | Some (str, rest) => Some (JString str, rest)
            | None => None
            end).
    rewrite append_assoc. cbn [append]. rewrite scan_escape. reflexivity.
  - destruct xs as [|x xs].
    + destruct fuel as [|f]; [simpl in Hfuel; lia | reflexivity].
    + rewrite encode_array_cons in *.
      destruct fuel as [|f]; [cbn [String.length] in Hfuel; lia|].
      cbn [append]. rewrite parse_value_array, !append_assoc.
      change ("]" ++ rest) with (String "]" rest).
      rewrite skip_ws_blank by apply blank_newline_indent.
      destruct (join_head_value indent (S level) (separator indent (S level)) x xs
                  (newline_indent indent level ++ String "]" rest)) as (c & t & E & Hc).
      apply starts_value_facts in Hc as (Hws & Hclose & _).
      rewrite E. cbn [skip_ws]. rewrite Hws, Hclose. rewrite <- E.
      rewrite reads_elements;
        [reflexivity | exact IH | discriminate | apply blank_newline_indent
        | apply blank_newline_indent | ].
      cbn [String.length] in Hfuel. rewrite !length_append in Hfuel.
      cbn [String.length] in Hfuel. lia.
  - destruct kvs as [|kv kvs].
    + destruct fuel as [|f]; [simpl in Hfuel; lia | reflexivity].
    + rewrite encode_object_cons in *.
      destruct fuel as [|f]; [cbn [String.length] in Hfuel; lia|].
      cbn [append]. rewrite parse_value_object, !append_assoc.
      change ("}" ++ rest) with (String "}" rest).
      rewrite skip_ws_blank by apply blank_newline_indent.
      destruct (join_head_member indent (S level) (separator indent (S level)) kv kvs
                  (newline_indent indent level ++ String "}" rest)) as (t & E).
      rewrite E. cbn [skip_ws]. change (is_ws dquote) with false.
      change (Ascii.eqb dquote "}") with false. cbv iota. rewrite <- E.
      rewrite reads_members;
        [reflexivity | exact IH | discriminate | apply blank_newline_indent
        | apply blank_newline_indent | ].
      cbn [String.length] in Hfuel. rewrite !length_append in Hfuel.
      cbn [String.length] in Hfuel. lia.
Qed.

(** Whatever [json.dumps] writes is read back as the value written. *)
Lemma loads_dumps (indent : option nat) (v : json) :
  loads (dumps indent v) = Some v.
Proof.
  unfold loads, dumps.
  rewrite <- (append_nil_r (encode indent 0 v)) at 2.
  rewrite reads_all; [reflexivity | lia | exact I].
Qed.

End JsonFacts.

(** * Facts about the toolkit *)

Lemma escape_char_plain (c : ascii) :
  plain_char c = true -> Json.escape_char c = String c "".
Proof.
  destruct c as [[] [] [] [] [] [] [] []]; intros H; try discriminate H; reflexivity.
Qed.

Lemma escape_plain (s : string) : plain s = true -> Json.escape s = s.
Proof.
  induction s as [|c s IH]; simpl; intros H; [reflexivity|].
  apply andb_true_iff in H as [Hc Hs].
  now rewrite escape_char_plain, IH.
Qed.

Lemma escape_append (a b : string) :
  Json.escape (a ++ b) = Json.escape a ++ Json.escape b.
Proof.
  induction a as [|c a IH]; simpl; [reflexivity|].
  now rewrite IH, append_assoc.
Qed.

Lemma dumps_error (message : string) :
  Json.dumps None (error_payload message) = error_text (Json.escape message).
Proof.
  unfold error_text, quoted. cbn. rewrite !append_assoc. reflexivity.
Qed.

Lemma loads_error (message : string) :
  Json.loads (Json.dumps None (error_payload message)) = Some (error_payload message).
Proof. apply JsonFacts.loads_dumps. Qed.

Lemma shape_of_success (query : string) (items : list json) :
  success_shape (success_payload query items) = true
  /\ error_shape (success_payload query items) = false.
Proof. split; reflexivity. Qed.

Lemma shape_of_error (message : string) :
  success_shape (error_payload message) = false
  /\ error_shape (error_payload message) = true.
Proof. split; reflexivity. Qed.

Section SearchFacts.

Context {Url : Type} (url_str : Url -> string).
Context (client_search : BraveSearch -> SearchCall -> outcome (option (SearchResponse Url))).

Lemma collect_from (rs : list (WebResult Url)) (acc : list json) :
  fold_left (fun web_results result => web_results ++ [web_result url_str result])%list
            rs acc
  = (acc ++ map (web_result url_str) rs)%list.
Proof.
  revert acc. induction rs as [|r rs IH]; intros acc; simpl.
  - now rewrite List.app_nil_r.
  - rewrite IH, <- List.app_assoc. reflexivity.
Qed.

Lemma collect_map (rs : list (WebResult Url)) :
  collect url_str rs = map (web_result url_str) rs.
Proof. unfold collect. now rewrite collect_from. Qed.

Lemma nonempty_results_some (response : option (SearchResponse Url)) (rs : list (WebResult Url)) :
  nonempty_results response = Some rs -> provider_results response = rs /\ rs <> [].
Proof.
  destruct response as [[[[[[|x xs]|]]|]]|]; simpl; intros H; try discriminate H.
  injection H as <-. split; [reflexivity | discriminate].
Qed.

Lemma nonempty_results_none (response : option (SearchResponse Url)) :
  nonempty_results response = None -> provider_results response = [].
Proof.
  destruct response as [[[[[[|x xs]|]]|]]|]; simpl; intros H; try discriminate H;
    reflexivity.
Qed.

Lemma run_no_query self query max_results country search_lang tr :
  truthy query = false ->
  brave_search url_str client_search self query max_results country search_lang tr
  = (Returns (Json.dumps None (error_payload "Please provide a query to search for")), tr).
Proof. intros H. unfold brave_search. rewrite H. reflexivity. Qed.

Lemma run_returns self query max_results country search_lang tr response :
  truthy query = true ->
  client_search (brave_client self)
    (effective_call self query max_results country search_lang) = Returns response ->
  brave_search url_str client_search self query max_results country search_lang tr
  = (Returns (Json.dumps (Some 2%nat)
                (success_payload (py_str query)
                   (map (web_result url_str) (provider_results response)))),
     tr ++ [LogInfo ("Searching Brave for: " ++ py_str query);
            ClientSearch (brave_client self)
              (effective_call self query max_results country search_lang)])%list.
Proof.
  intros Hq Hc. unfold brave_search. rewrite Hq. cbn [negb].
  unfold try_except, bind, log_info, emit, search, ret.
  unfold effective_call in Hc. rewrite Hc. rewrite <- List.app_assoc. cbn [app].
  destruct query as [qs|]; [|discriminate Hq]. cbn [to_json py_str].
  destruct (nonempty_results response) as [rs|] eqn:E.
  - apply nonempty_results_some in E as [-> _].
    rewrite collect_map. cbn [dict_set String.eqb Ascii.eqb Bool.eqb].
    unfold len, success_payload. reflexivity.
  - apply nonempty_results_none in E as ->. reflexivity.
Qed.

Lemma run_raises self query max_results country search_lang tr e :
  truthy query = true ->
  client_search (brave_client self)
    (effective_call self query max_results country search_lang) = Raises e ->
  brave_search url_str client_search self query max_results country search_lang tr
  = let called :=
      (tr ++ [LogInfo ("Searching Brave for: " ++ py_str query);
              ClientSearch (brave_client self)
                (effective_call self query max_results country search_lang)])%list in
    if is_BraveSearchAPIError e then
      (Returns (Json.dumps None (error_payload ("Brave Search API error: " ++ exn_str e))),
       called ++ [LogError ("Brave Search API error for query '" ++ py_str query
                              ++ "': " ++ exn_str e)])%list
    else if is_Exception e then
      (Returns (Json.dumps None
                  (error_payload ("An unexpected error occurred: " ++ exn_str e))),
       called ++ [LogError ("An unexpected error occurred during Brave search for query '"
                              ++ py_str query ++ "': " ++ exn_str e)])%list
    else (Raises e, called).
Proof.
  intros Hq Hc. unfold brave_search. rewrite Hq. cbn [negb].
  unfold try_except, bind, log_info, log_error, emit, search, ret, raise.
  unfold effective_call in Hc. rewrite Hc. rewrite <- List.app_assoc. cbn [app].
  destruct (is_BraveSearchAPIError e); [reflexivity|].
  destruct (is_Exception e); reflexivity.
Qed.

Lemma client_calls_app (a b : list event) :
  client_calls (a ++ b) = (client_calls a ++ client_calls b)%list.
Proof. unfold client_calls. apply flat_map_app. Qed.

Lemma clients_created_app (a b : list event) :
  clients_created (a ++ b) = (clients_created a ++ clients_created b)%list.
Proof. unfold clients_created. apply flat_map_app. Qed.

Lemma truthy_nonempty (qs : string) : qs <> "" -> truthy (Some qs) = true.
Proof. destruct qs; [congruence | reflexivity]. Qed.

Lemma truthy_false (query : option string) :
  truthy query = false <-> query = None \/ query = Some "".
Proof.
  destruct query as [[|c s]|]; simpl; split; intros H;
    try reflexivity; try discriminate H; auto.
  - destruct H as [H|H]; discriminate H.
Qed.

(** Which client calls one run of the tool adds to the trace. *)
Lemma run_calls self query max_results country search_lang tr :
  client_calls
    (snd (brave_search url_str client_search self query max_results country
            search_lang tr))
  = (client_calls tr ++
     if truthy query
     then [effective_call self query max_results country search_lang]
     else [])%list.
Proof.
  destruct (truthy query) eqn:Hq.
  - destruct (client_search (brave_client self)
                (effective_call self query max_results country search_lang))
      as [response|e] eqn:Hc.
    + rewrite (run_returns _ _ _ _ _ _ _ Hq Hc). cbn [snd].
      rewrite client_calls_app. reflexivity.
    + rewrite (run_raises _ _ _ _ _ _ _ Hq Hc). cbv zeta.
      destruct (is_BraveSearchAPIError e); [|destruct (is_Exception e)];
        cbn [snd]; rewrite ?client_calls_app; cbn; rewrite ?List.app_nil_r; reflexivity.
  - rewrite run_no_query by exact Hq. cbn [snd]. now rewrite List.app_nil_r.
Qed.

End SearchFacts.

(** * The claims *)

Section Claims.

Context {Url : Type} (url_str : Url -> string).
Context (client_search : BraveSearch -> SearchCall -> outcome (option (SearchResponse Url))).

(** C1. Whenever the tool calls the client, the count it passes is
    [fixed_max_results] if that is set and otherwise the [max_results]
    argument (5 when the argument is left out); the language is
    [fixed_language] if set and otherwise the [search_lang] argument;
    the country is the argument as given. An argument that is [None]
    here was left out of the call. The tool makes exactly this one
    client call when the query is non-empty and none otherwise. *)
Theorem search_passes_effective_parameters
    (self : BraveSearchTools) (query : option string) (max_results : option Z)
    (country search_lang : option string) (tr : list event) :
  client_calls
    (snd (call_brave_search url_str client_search self query max_results country
            search_lang tr))
  = (client_calls tr ++
     if truthy query then
       [ {| q := query;
            count := match fixed_max_results self with
                     | Some fixed => fixed
                     | None => match max_results with Some n => n | None => 5%Z end
                     end;
            call_country := match country with Some c => c | None => "US" end;
            call_search_lang :=
              match fixed_language self with
              | Some fixed => fixed
              | None => match search_lang with Some l => l | None => "en" end
              end;
            result_filter := "web" |} ]
     else [])%list.
Proof. unfold call_brave_search. rewrite run_calls. reflexivity. Qed.

(** C2. A query that is absent or the empty string makes the tool
    return exactly the text [{"error": "Please provide a query to search
    for"}]; the trace is left as it was, so the client is not called. *)
Theorem empty_query_is_refused
    (self : BraveSearchTools) (query : option string) (max_results : Z)
    (country search_lang : string) (tr : list event) :
  query = None \/ query = Some "" ->
  brave_search url_str client_search self query max_results country search_lang tr
  = (Returns (error_text "Please provide a query to search for"), tr)
  /\ client_calls
       (snd (brave_search url_str client_search self query max_results country
               search_lang tr))
     = client_calls tr.
Proof.
  intros H. apply truthy_false in H.
  rewrite run_no_query by exact H. split; reflexivity.
Qed.

(** C3. For a non-empty query to which the client answers with a
    response carrying N web results (N = 0 when the response, its web
    section or the list is missing or empty), the tool returns JSON text
    that reads back as the payload whose [web_results] are the N results,
    each projected to title, [str] of the url and description, in the
    provider's order, whose [query] is the query and whose
    [total_results] is N. That payload is never of the error shape; with
    no results it has an empty list and a total of 0. *)
Theorem search_projects_results
    (self : BraveSearchTools) (qs : string) (max_results : Z)
    (country search_lang : string) (tr : list event)
    (response : option (SearchResponse Url)) :
  qs <> "" ->
  client_search (brave_client self)
    (effective_call self (Some qs) max_results country search_lang)
  = Returns response ->
  let N := List.length (provider_results response) in
  let items :=
    map (fun r => SearchResultItem (title r) (url_str (url r)) (description r))
        (provider_results response) in
  exists text tr' payload,
    brave_search url_str client_search self (Some qs) max_results country
      search_lang tr = (Returns text, tr')
    /\ text = Json.dumps (Some 2%nat) payload
    /\ Json.loads text = Some payload
    /\ payload = JObject [("web_results", JArray items);
                          ("query", JString qs);
                          ("total_results", JInt (Z.of_nat N))]
    /\ List.length items = N
    /\ error_shape payload = false
    /\ (provider_results response = [] ->
        payload = JObject [("web_results", JArray []);
                           ("query", JString qs);
                           ("total_results", JInt 0)]).
Proof.
  intros Hq Hc N items. apply truthy_nonempty in Hq.
  rewrite (run_returns _ _ _ _ _ _ _ _ _ Hq Hc).
  do 3 eexists. split; [reflexivity|]. split; [reflexivity|].
  split; [apply JsonFacts.loads_dumps|].
  unfold success_payload. cbn [py_str]. rewrite length_map.
  fold N. split; [reflexivity|]. split; [apply length_map|]. split; [reflexivity|].
  intros E. subst N. rewrite E. reflexivity.
Qed.

(** C4. For a non-empty query on which the client raises
    [BraveSearchAPIError] with message [m], the tool returns the JSON
    text of [{"error": "Brave Search API error: <m>"}]: it reads back as
    that object, and when [m] needs no escaping it is that text letter
    for letter. No other class of error is told apart: every other
    error derived from [Exception] gets the one generic message,
    whatever its class. *)
Theorem provider_error_is_reported
    (self : BraveSearchTools) (qs : string) (max_results : Z)
    (country search_lang : string) (tr : list event) (e : exn) :
  qs <> "" ->
  client_search (brave_client self)
    (effective_call self (Some qs) max_results country search_lang)
  = Raises e ->
  is_Exception e = true ->
  exists text tr',
    brave_search url_str client_search self (Some qs) max_results country
      search_lang tr = (Returns text, tr')
    /\ (exn_class e = BraveSearchAPIError ->
        Json.loads text
          = Some (JObject [("error", JString ("Brave Search API error: " ++ exn_str e))])
        /\ (plain (exn_str e) = true ->
            text = error_text ("Brave Search API error: " ++ exn_str e)))
    /\ (exn_class e <> BraveSearchAPIError ->
        Json.loads text
          = Some (JObject [("error",
                            JString ("An unexpected error occurred: " ++ exn_str e))])).
Proof.
  intros Hq Hc He. apply truthy_nonempty in Hq.
  rewrite (run_raises _ _ _ _ _ _ _ _ _ Hq Hc). cbv zeta.
  unfold is_BraveSearchAPIError. rewrite He.
  destruct (exn_class e) eqn:Hclass; do 2 eexists;
    (split; [reflexivity|]); split; intros H; try congruence.
  - split; [apply loads_error|]. intros Hm.
    rewrite dumps_error, escape_append, (escape_plain _ Hm). reflexivity.
  - apply loads_error.
  - apply loads_error.
  - apply loads_error.
Qed.

(** C5. For a non-empty query on which the client raises an error that
    is not a [BraveSearchAPIError], with message [m], the tool returns
    the JSON text of [{"error": "An unexpected error occurred: <m>"}]: it
    reads back as that object, and when [m] needs no escaping it is that
    text letter for letter. *)
Theorem other_error_is_reported
    (self : BraveSearchTools) (qs : string) (max_results : Z)
    (country search_lang : string) (tr : list event) (e : exn) :
  qs <> "" ->
  client_search (brave_client self)
    (effective_call self (Some qs) max_results country search_lang)
  = Raises e ->
  is_Exception e = true ->
  is_BraveSearchAPIError e = false ->
  exists text tr',
    brave_search url_str client_search self (Some qs) max_results country
      search_lang tr = (Returns text, tr')
    /\ Json.loads text
       = Some (JObject [("error",
                         JString ("An unexpected error occurred: " ++ exn_str e))])
    /\ (plain (exn_str e) = true ->
        text = error_text ("An unexpected error occurred: " ++ exn_str e)).
Proof.
  intros Hq Hc He Hapi. apply truthy_nonempty in Hq.
  rewrite (run_raises _ _ _ _ _ _ _ _ _ Hq Hc). cbv zeta. rewrite Hapi, He.
  do 2 eexists. split; [reflexivity|]. split; [apply loads_error|].
  intros Hm. rewrite dumps_error, escape_append, (escape_plain _ Hm). reflexivity.
Qed.

(** C6. Whatever the arguments, and whether the client answers with a
    response, a [BraveSearchAPIError] or any other error derived from
    [Exception], the tool returns rather than raises, and what it returns
    is JSON text that reads back as a payload of exactly one of the two
    shapes: the success shape or the error shape. *)
Theorem search_always_returns_json
    (self : BraveSearchTools) (query : option string) (max_results : Z)
    (country search_lang : string) (tr : list event) :
  ordinary (client_search (brave_client self)
              (effective_call self query max_results country search_lang)) ->
  exists text tr' payload,
    brave_search url_str client_search self query max_results country
      search_lang tr = (Returns text, tr')
    /\ Json.loads text = Some payload
    /\ xorb (success_shape payload) (error_shape payload) = true.
Proof.
  intros Hord. destruct (truthy query) eqn:Hq.
  - destruct (client_search (brave_client self)
                (effective_call self query max_results country search_lang))
      as [response|e] eqn:Hc.
    + rewrite (run_returns _ _ _ _ _ _ _ _ _ Hq Hc).
      do 3 eexists. split; [reflexivity|]. split; [apply JsonFacts.loads_dumps|].
      reflexivity.
    + rewrite (run_raises _ _ _ _ _ _ _ _ _ Hq Hc). cbv zeta.
      simpl in Hord. rewrite Hord.
      destruct (is_BraveSearchAPIError e); do 3 eexists;
        (split; [reflexivity|]); (split; [apply loads_error|]); reflexivity.
  - rewrite run_no_query by exact Hq.
    do 3 eexists. split; [reflexivity|]. split; [apply loads_error|]. reflexivity.
Qed.

(** C7. Construction settles on the [api_key] argument when it is a
    non-empty string and on the environment variable [BRAVE_API_KEY]
    otherwise. When that yields a non-empty key, the client is created
    with it and the object is returned holding it; when it does not,
    construction raises [ValueError], returns no object and creates no
    client. *)
Theorem construction_requires_key
    (environ : string -> option string) (key_argument : option string)
    (fixed_max_results : option Z) (fixed_language : option string)
    (wait_time retries : Z) (tr : list event) :
  let key := resolved_key environ key_argument in
  let built :=
    __init__ environ key_argument fixed_max_results fixed_language wait_time retries tr in
  (truthy key = true ->
   exists self,
     built = (Returns self, (tr ++ [NewClient (mk_client key wait_time retries)])%list)
     /\ api_key self = key
     /\ brave_client self = mk_client key wait_time retries)
  /\ (truthy key = false ->
      (exists message, built = (Raises (mk_exn ValueError message), tr))
      /\ clients_created (snd built) = clients_created tr).
Proof.
  intros key built.
  assert (Hkey : py_or key_argument (getenv environ "BRAVE_API_KEY") = key).
  { subst key. destruct key_argument as [[|c k]|]; reflexivity. }
  subst built. unfold __init__. rewrite Hkey. split; intros H; rewrite H; cbn [negb].
  - eexists. split; [reflexivity|]. split; reflexivity.
  - split; [eexists; reflexivity | reflexivity].
Qed.

(** C8. Whenever the tool returns text that reads back as a payload of
    the success shape, that payload has exactly the keys [web_results],
    [query] and [total_results], its [total_results] is the length of its
    [web_results], and its [query] is the query the tool was given. *)
Theorem success_payload_is_consistent
    (self : BraveSearchTools) (query : option string) (max_results : Z)
    (country search_lang : string) (tr tr' : list event) (text : string)
    (payload : json) :
  brave_search url_str client_search self query max_results country search_lang tr
  = (Returns text, tr') ->
  Json.loads text = Some payload ->
  success_shape payload = true ->
  exists items qs,
    query = Some qs
    /\ payload = JObject [("web_results", JArray items);
                          ("query", JString qs);
                          ("total_results", JInt (Z.of_nat (List.length items)))]
    /\ match payload with
       | JObject kvs => dict_keys kvs = ["web_results"; "query"; "total_results"]
       | _ => False
       end.
Proof.
  intros Hrun Hload Hshape. destruct (truthy query) eqn:Hq.
  - destruct (client_search (brave_client self)
                (effective_call self query max_results country search_lang))
      as [response|e] eqn:Hc.
    + rewrite (run_returns _ _ _ _ _ _ _ _ _ Hq Hc) in Hrun.
      injection Hrun as <- _. rewrite JsonFacts.loads_dumps in Hload.
      injection Hload as <-.
      destruct query as [qs|]; [|discriminate Hq].
      do 2 eexists. split; [reflexivity|]. split; reflexivity.
    + rewrite (run_raises _ _ _ _ _ _ _ _ _ Hq Hc) in Hrun. cbv zeta in Hrun.
      destruct (is_BraveSearchAPIError e); [|destruct (is_Exception e)];
        try discriminate Hrun;
        injection Hrun as <- _; rewrite loads_error in Hload;
        injection Hload as <-; discriminate Hshape.
  - rewrite run_no_query in Hrun by exact Hq.
    injection Hrun as <- _. rewrite loads_error in Hload.
    injection Hload as <-. discriminate Hshape.
Qed.

(** C9. An [api_key] argument that is the empty string is treated as no
    argument at all: construction does exactly what it does without the
    argument, so it takes the key from [BRAVE_API_KEY] when that is set to
    a non-empty string. *)
Theorem empty_api_key_falls_back
    (environ : string -> option string)
    (fixed_max_results : option Z) (fixed_language : option string)
    (wait_time retries : Z) (tr : list event) :
  __init__ environ (Some "") fixed_max_results fixed_language wait_time retries tr
  = __init__ environ None fixed_max_results fixed_language wait_time retries tr
  /\ (forall c k,
        environ "BRAVE_API_KEY" = Some (String c k) ->
        exists self tr',
          __init__ environ (Some "") fixed_max_results fixed_language wait_time
            retries tr = (Returns self, tr')
          /\ api_key self = Some (String c k)).
Proof.
  split; [reflexivity|]. intros c k E.
  unfold __init__, py_or, getenv. cbn [truthy str_truthy]. rewrite E.
  do 2 eexists. split; reflexivity.
Qed.

(** C10. A fixed setting overrides as soon as it is not [None], even
    when it is falsy: with [fixed_max_results = 0] the client is asked for
    0 results whatever [max_results] is, and with [fixed_language] the
    empty string the client is given the empty string as language. *)
Theorem falsy_fixed_settings_override
    (self : BraveSearchTools) (qs : string) (max_results : Z)
    (country search_lang : string) (tr : list event) :
  qs <> "" ->
  exists call,
    client_calls
      (snd (brave_search url_str client_search self (Some qs) max_results country
              search_lang tr))
    = (client_calls tr ++ [call])%list
    /\ (fixed_max_results self = Some 0%Z -> count call = 0%Z)
    /\ (fixed_language self = Some "" -> call_search_lang call = "").
Proof.
  intros Hq. apply truthy_nonempty in Hq.
  rewrite run_calls, Hq. eexists. split; [reflexivity|].
  split; intros H; cbn; rewrite H; reflexivity.
Qed.

End Claims.

(** * Concrete runs *)

(** The text written for two results, line by line. *)
Example sample_run_text :
  fst (brave_search url_text (answers sample_response) sample_tools (Some "rocq")
         5 "US" "en" [])
  = Returns (join (String newline "")
      ["{";
       "  " ++ quoted "web_results" ++ ": [";
       "    {";
       "      " ++ quoted "title" ++ ": " ++ quoted "Rocq" ++ ",";
       "      " ++ quoted "url" ++ ": " ++ quoted "https://rocq-prover.org/" ++ ",";
       "      " ++ quoted "description" ++ ": " ++ quoted "A proof assistant";
       "    },";
       "    {";
       "      " ++ quoted "title" ++ ": " ++ quoted "Brave" ++ ",";
       "      " ++ quoted "url" ++ ": " ++ quoted "https://brave.com/" ++ ",";
       "      " ++ quoted "description" ++ ": " ++ quoted "A browser";
       "    }";
       "  ],";
       "  " ++ quoted "query" ++ ": " ++ quoted "rocq" ++ ",";
       "  " ++ quoted "total_results" ++ ": 2";
       "}"]).
Proof. reflexivity. Qed.

(** The text written when the provider has nothing. *)
Example empty_run_text :
  fst (brave_search url_text (answers None) sample_tools (Some "rocq") 5 "US" "en" [])
  = Returns (join (String newline "")
      ["{";
       "  " ++ quoted "web_results" ++ ": [],";
       "  " ++ quoted "query" ++ ": " ++ quoted "rocq" ++ ",";
       "  " ++ quoted "total_results" ++ ": 0";
       "}"]).
Proof. reflexivity. Qed.

(** Characters outside printable ASCII are escaped on the way out and
    restored on the way in. *)
Example escaped_message_text :
  Json.dumps None (error_payload (String dquote (String newline (String "233" ""))))
  = error_text (String backslash (String dquote
                  (String backslash (String "n"
                    (String backslash "u00e9"))))).
Proof. reflexivity. Qed.

(** An interrupt is not an error: it is derived from [BaseException]
    alone, so [except Exception] lets it through. *)
Example interrupt_passes_through :
  fst (brave_search url_text (fails (mk_exn (SystemExiting "KeyboardInterrupt") ""))
         sample_tools (Some "rocq") 5 "US" "en" [])
  = Raises (mk_exn (SystemExiting "KeyboardInterrupt") "").
Proof. reflexivity. Qed.

(** The empty query, on the sample toolkit. *)
Lemma empty_query_is_refused_witness :
  brave_search url_text (answers sample_response) sample_tools (Some "") 5 "US" "en" []
  = (Returns (error_text "Please provide a query to search for"), [])
  /\ client_calls
       (snd (brave_search url_text (answers sample_response) sample_tools (Some "")
               5 "US" "en" []))
     = client_calls [].
Proof.
  apply (empty_query_is_refused url_text (answers sample_response) sample_tools
           (Some "") 5 "US" "en" []).
  right. reflexivity.
Defined.

(** Two results for the query [rocq]. *)
Lemma search_projects_results_witness :
  exists text,
    fst (brave_search url_text (answers sample_response) sample_tools (Some "rocq")
           5 "US" "en" []) = Returns text
    /\ Json.loads text = Some sample_payload.
Proof.
  destruct (search_projects_results url_text (answers sample_response) sample_tools
              "rocq" 5 "US" "en" [] sample_response)
    as (text & tr' & payload & Hrun & _ & Hload & Hpayload & _).
  - discriminate.
  - reflexivity.
  - exists text. rewrite Hrun, Hload, Hpayload. split; reflexivity.
Defined.

(** The provider answers [rate limited]. *)
Lemma provider_error_is_reported_witness :
  fst (brave_search url_text (fails (mk_exn BraveSearchAPIError "rate limited"))
         sample_tools (Some "rocq") 5 "US" "en" [])
  = Returns (error_text "Brave Search API error: rate limited").
Proof.
  destruct (provider_error_is_reported url_text
              (fails (mk_exn BraveSearchAPIError "rate limited"))
              sample_tools "rocq" 5 "US" "en" []
              (mk_exn BraveSearchAPIError "rate limited"))
    as (text & tr' & Hrun & Hapi & _).
  - discriminate.
  - reflexivity.
  - reflexivity.
  - destruct (Hapi eq_refl) as [_ Hplain].
    rewrite Hrun, (Hplain eq_refl). reflexivity.
Defined.

(** The call times out. *)
Lemma other_error_is_reported_witness :
  fst (brave_search url_text (fails (mk_exn (OtherException "TimeoutError") "timeout"))
         sample_tools (Some "rocq") 5 "US" "en" [])
  = Returns (error_text "An unexpected error occurred: timeout").
Proof.
  destruct (other_error_is_reported url_text
              (fails (mk_exn (OtherException "TimeoutError") "timeout"))
              sample_tools "rocq" 5 "US" "en" []
              (mk_exn (OtherException "TimeoutError") "timeout"))
    as (text & tr' & Hrun & _ & Hplain).
  - discriminate.
  - reflexivity.
  - reflexivity.
  - reflexivity.
  - rewrite Hrun, (Hplain eq_refl). reflexivity.
Defined.

(** A client that fails with a [ValueError]. *)
Lemma search_always_returns_json_witness :
  exists text tr' payload,
    brave_search url_text (fails (mk_exn ValueError "bad response")) sample_tools
      (Some "rocq") 5 "US" "en" [] = (Returns text, tr')
    /\ Json.loads text = Some payload
    /\ xorb (success_shape payload) (error_shape payload) = true.
Proof.
  apply (search_always_returns_json url_text (fails (mk_exn ValueError "bad response"))
           sample_tools (Some "rocq") 5 "US" "en" []).
  reflexivity.
Defined.

(** The payload of the two sample results. *)
Lemma success_payload_is_consistent_witness :
  exists items qs,
    Some "rocq" = Some qs
    /\ sample_payload
       = JObject [("web_results", JArray items);
                  ("query", JString qs);
                  ("total_results", JInt (Z.of_nat (List.length items)))]
    /\ match sample_payload with
       | JObject kvs => dict_keys kvs = ["web_results"; "query"; "total_results"]
       | _ => False
       end.
Proof.
  apply (success_payload_is_consistent url_text (answers sample_response) sample_tools
           (Some "rocq") 5 "US" "en" []
           (snd (brave_search url_text (answers sample_response) sample_tools
                   (Some "rocq") 5 "US" "en" []))
           (Json.dumps (Some 2%nat) sample_payload) sample_payload).
  - reflexivity.
  - vm_compute. reflexivity.
  - reflexivity.
Defined.

(** A toolkit fixed to 0 results and the empty language, asked for 7
    results in [en]. *)
Lemma falsy_fixed_settings_override_witness :
  exists call,
    client_calls
      (snd (brave_search url_text (answers sample_response) falsy_tools (Some "rocq")
              7 "US" "en" []))
    = [call]
    /\ count call = 0%Z
    /\ call_search_lang call = "".
Proof.
  destruct (falsy_fixed_settings_override url_text (answers sample_response)
              falsy_tools "rocq" 7 "US" "en" [])
    as (call & Hcalls & Hcount & Hlang).
  - discriminate.
  - exists call. split; [exact Hcalls|].
    split; [apply Hcount | apply Hlang]; reflexivity.
Defined.

(** * Further properties of the toolkit *)

(** ** The characters of JSON text *)

Lemma string_forall_append (p : ascii -> bool) (a b : string) :
  string_forall p (a ++ b) = string_forall p a && string_forall p b.
Proof.
  induction a as [|c a IH]; simpl; [reflexivity|].
  now rewrite IH, andb_assoc.
Qed.

Lemma string_forall_weaken (p p' : ascii -> bool) (s : string) :
  (forall c, p c = true -> p' c = true) ->
  string_forall p s = true -> string_forall p' s = true.
Proof.
  intros Hpp. induction s as [|c s IH]; simpl; [reflexivity|].
  intros H. apply andb_true_iff in H as [Hc Hs].
  now rewrite (Hpp c Hc), IH.
Qed.

Lemma printable_text_char (indent : option nat) (c : ascii) :
  printable c = true -> text_char indent c = true.
Proof. unfold text_char. now intros ->. Qed.

Lemma string_forall_join (p : ascii -> bool) (sep : string) (parts : list string) :
  string_forall p sep = true ->
  Forall (fun part => string_forall p part = true) parts ->
  string_forall p (join sep parts) = true.
Proof.
  intros Hsep. induction 1 as [|part parts Hpart Hparts IH]; [reflexivity|].
  destruct parts as [|part' parts']; [exact Hpart|].
  change (join sep (part :: part' :: parts'))
    with (part ++ sep ++ join sep (part' :: parts')).
  now rewrite !string_forall_append, Hpart, Hsep, IH.
Qed.

Lemma escape_char_printable (c : ascii) :
  string_forall printable (Json.escape_char c) = true.
Proof. destruct c as [[] [] [] [] [] [] [] []]; reflexivity. Qed.

Lemma escape_printable (s : string) : string_forall printable (Json.escape s) = true.
Proof.
  induction s as [|c s IH]; simpl; [reflexivity|].
  now rewrite string_forall_append, escape_char_printable, IH.
Qed.

Lemma basestring_printable (s : string) :
  string_forall printable (Json.encode_basestring_ascii s) = true.
Proof.
  unfold Json.encode_basestring_ascii. cbn [string_forall].
  rewrite string_forall_append, escape_printable. reflexivity.
Qed.

Lemma uint_printable (d : Decimal.uint) :
  string_forall printable (NilEmpty.string_of_uint d) = true.
Proof. induction d; simpl; auto. Qed.

Lemma int_repr_printable (z : Z) : string_forall printable (int_repr z) = true.
Proof. destruct z; simpl; auto using uint_printable. Qed.

Lemma spaces_printable (n : nat) : string_forall printable (spaces n) = true.
Proof. induction n; simpl; auto. Qed.

Lemma newline_indent_chars (indent : option nat) (level : nat) :
  string_forall (text_char indent) (Json.newline_indent indent level) = true.
Proof.
  destruct indent as [k|]; [|reflexivity].
  cbn [Json.newline_indent string_forall].
  replace (text_char (Some k) newline) with true by reflexivity.
  apply (string_forall_weaken printable); [apply printable_text_char|].
  apply spaces_printable.
Qed.

Lemma separator_chars (indent : option nat) (level : nat) :
  string_forall (text_char indent) (Json.separator indent level) = true.
Proof.
  unfold Json.separator. rewrite string_forall_append, newline_indent_chars.
  destruct indent; reflexivity.
Qed.

Lemma encode_chars (indent : option nat) (v : json) :
  forall level, string_forall (text_char indent) (Json.encode indent level v) = true.
Proof.
  induction v as [|b|z|s|xs IH|kvs IH] using json_induction; intros level.
  - reflexivity.
  - destruct b; reflexivity.
  - apply (string_forall_weaken printable); [apply printable_text_char|].
    apply int_repr_printable.
  - apply (string_forall_weaken printable); [apply printable_text_char|].
    apply basestring_printable.
  - destruct xs as [|x xs]; [reflexivity|].
    rewrite JsonFacts.encode_array_cons. cbn [string_forall].
    rewrite !string_forall_append, !newline_indent_chars.
    rewrite string_forall_join; [reflexivity | apply separator_chars |].
    apply Forall_map. revert IH. apply Forall_impl. intros a Ha. apply Ha.
  - destruct kvs as [|kv kvs]; [reflexivity|].
    rewrite JsonFacts.encode_object_cons. cbn [string_forall].
    rewrite !string_forall_append, !newline_indent_chars.
    rewrite string_forall_join; [reflexivity | apply separator_chars |].
    apply Forall_map. revert IH. apply Forall_impl. intros a Ha.
    unfold JsonFacts.member_text. rewrite !string_forall_append, Ha.
    rewrite (string_forall_weaken printable _ _ (printable_text_char indent)
               (basestring_printable (fst a))).
    reflexivity.
Qed.

Lemma dumps_chars (indent : option nat) (v : json) :
  string_forall (text_char indent) (Json.dumps indent v) = true.
Proof. apply encode_chars. Qed.

Lemma dumps_single_line (v : json) :
  string_forall printable (Json.dumps None v) = true.
Proof.
  apply (string_forall_weaken (text_char None)); [|apply dumps_chars].
  intros c. unfold text_char. now rewrite orb_false_r.
Qed.

Lemma searches_app (a b : list event) :
  searches (a ++ b) = (searches a ++ searches b)%list.
Proof. unfold searches. apply flat_map_app. Qed.

Section Further.

Context {Url : Type} (url_str : Url -> string).
Context (client_search : BraveSearch -> SearchCall -> outcome (option (SearchResponse Url))).

(** The searches and the clients one run of the tool adds to the
    trace. *)
Lemma run_searches self query max_results country search_lang tr :
  searches
    (snd (brave_search url_str client_search self query max_results country
            search_lang tr))
  = (searches tr ++
     if truthy query
     then [(brave_client self,
            effective_call self query max_results country search_lang)]
     else [])%list
  /\ clients_created
       (snd (brave_search url_str client_search self query max_results country
               search_lang tr))
     = clients_created tr.
Proof.
  destruct (truthy query) eqn:Hq.
  - destruct (client_search (brave_client self)
                (effective_call self query max_results country search_lang))
      as [response|e] eqn:Hc.
    + rewrite (run_returns _ _ _ _ _ _ _ _ _ Hq Hc). cbn [snd].
      rewrite searches_app, clients_created_app. cbn. now rewrite List.app_nil_r.
    + rewrite (run_raises _ _ _ _ _ _ _ _ _ Hq Hc). cbv zeta.
      destruct (is_BraveSearchAPIError e); [|destruct (is_Exception e)];
        cbn [snd]; rewrite ?searches_app, ?clients_created_app; cbn;
        rewrite ?List.app_nil_r; split; reflexivity.
  - rewrite run_no_query by exact Hq. cbn [snd]. now rewrite List.app_nil_r.
Qed.

(** X1. What one run of the tool records, in order: for a non-empty
    query an info line naming the query, then the one client call, then,
    if the client raised an error derived from [Exception], one error line
    naming the query and the message; for an empty query nothing. The
    earlier trace is kept as it was. *)
Theorem search_records_its_steps
    (self : BraveSearchTools) (query : option string) (max_results : Z)
    (country search_lang : string) (tr : list event) :
  snd (brave_search url_str client_search self query max_results country search_lang tr)
  = (tr ++
     if truthy query then
       LogInfo ("Searching Brave for: " ++ py_str query)
       :: ClientSearch (brave_client self)
            (effective_call self query max_results country search_lang)
       :: match client_search (brave_client self)
                  (effective_call self query max_results country search_lang) with
          | Returns _ => []
          | Raises e =>
              if is_BraveSearchAPIError e then
                [LogError ("Brave Search API error for query '" ++ py_str query
                             ++ "': " ++ exn_str e)]
              else if is_Exception e then
                [LogError ("An unexpected error occurred during Brave search for query '"
                             ++ py_str query ++ "': " ++ exn_str e)]
              else []
          end
     else [])%list.
Proof.
  destruct (truthy query) eqn:Hq.
  - destruct (client_search (brave_client self)
                (effective_call self query max_results country search_lang))
      as [response|e] eqn:Hc.
    + now rewrite (run_returns _ _ _ _ _ _ _ _ _ Hq Hc).
    + rewrite (run_raises _ _ _ _ _ _ _ _ _ Hq Hc). cbv zeta.
      destruct (is_BraveSearchAPIError e); [|destruct (is_Exception e)];
        cbn [snd]; rewrite <- ?List.app_assoc; reflexivity.
  - rewrite run_no_query by exact Hq. cbn [snd]. now rewrite List.app_nil_r.
Qed.

(** X2. An exception of the client that is not derived from [Exception]
    (a keyboard interrupt, a system exit) is not turned into a reply: the
    tool raises that same exception. *)
Theorem interrupts_are_not_caught
    (self : BraveSearchTools) (qs : string) (max_results : Z)
    (country search_lang : string) (tr : list event) (e : exn) :
  qs <> "" ->
  client_search (brave_client self)
    (effective_call self (Some qs) max_results country search_lang) = Raises e ->
  is_Exception e = false ->
  fst (brave_search url_str client_search self (Some qs) max_results country
         search_lang tr) = Raises e.
Proof.
  intros Hq Hc He. apply truthy_nonempty in Hq.
  rewrite (run_raises _ _ _ _ _ _ _ _ _ Hq Hc). cbv zeta. rewrite He.
  unfold is_BraveSearchAPIError. unfold is_Exception in He.
  destruct (exn_class e); try discriminate He. reflexivity.
Qed.

(** X3. Every reply is plain ASCII: each character is printable (space
    to tilde) or a line feed, whatever the query, the results and the
    error messages contain. A reply to an empty query or to a failed call
    is a single line. *)
Theorem reply_is_ascii
    (self : BraveSearchTools) (query : option string) (max_results : Z)
    (country search_lang : string) (tr tr' : list event) (text : string) :
  brave_search url_str client_search self query max_results country search_lang tr
  = (Returns text, tr') ->
  string_forall (fun c => printable c || Ascii.eqb c newline) text = true
  /\ ((truthy query = false
       \/ exists e, client_search (brave_client self)
                      (effective_call self query max_results country search_lang)
                    = Raises e) ->
      string_forall printable text = true).
Proof.
  intros Hrun.
  assert (Hline : forall v, string_forall (fun c => printable c || Ascii.eqb c newline)
                              (Json.dumps None v) = true).
  { intros v. apply (string_forall_weaken printable); [|apply dumps_single_line].
    now intros c ->. }
  destruct (truthy query) eqn:Hq.
  - destruct (client_search (brave_client self)
                (effective_call self query max_results country search_lang))
      as [response|e] eqn:Hc.
    + rewrite (run_returns _ _ _ _ _ _ _ _ _ Hq Hc) in Hrun.
      injection Hrun as <- _. split.
      * apply (dumps_chars (Some 2%nat)).
      * intros [H|[e H]]; discriminate H.
    + rewrite (run_raises _ _ _ _ _ _ _ _ _ Hq Hc) in Hrun. cbv zeta in Hrun.
      destruct (is_BraveSearchAPIError e); [|destruct (is_Exception e)];
        try discriminate Hrun; injection Hrun as <- _;
        (split; [apply Hline | intros _; apply dumps_single_line]).
  - rewrite run_no_query in Hrun by exact Hq. injection Hrun as <- _.
    split; [apply Hline | intros _; apply dumps_single_line].
Qed.

(** X4. Building the toolkit and searching with it: with a usable key
    and a non-empty query, the one search is run by the client created
    with that key, wait time and retry count, and it is asked with the
    fixed settings given at construction in place of the request's; with
    no usable key the [ValueError] of construction comes out and nothing
    is recorded, the search never starts. *)
Theorem construction_then_search
    (environ : string -> option string) (key_argument : option string)
    (fixed_max : option Z) (fixed_lang : option string) (wait_time retries : Z)
    (query : option string) (max_results : Z) (country search_lang : string)
    (tr : list event) :
  let key := resolved_key environ key_argument in
  let run :=
    construct_and_search url_str client_search environ key_argument fixed_max
      fixed_lang wait_time retries query max_results country search_lang tr in
  (truthy key = true -> truthy query = true ->
   clients_created (snd run)
   = (clients_created tr ++ [mk_client key wait_time retries])%list
   /\ searches (snd run)
      = (searches tr ++
         [(mk_client key wait_time retries,
           {| q := query;
              count := match fixed_max with Some n => n | None => max_results end;
              call_country := country;
              call_search_lang :=
                match fixed_lang with Some l => l | None => search_lang end;
              result_filter := "web" |})])%list)
  /\ (truthy key = false ->
      run = (Raises (mk_exn ValueError missing_key_message), tr)).
Proof.
  intros key run.
  assert (Hkey : py_or key_argument (getenv environ "BRAVE_API_KEY") = key).
  { subst key. destruct key_argument as [[|c k]|]; reflexivity. }
  subst run. unfold construct_and_search, bind, __init__. rewrite Hkey.
  split.
  - intros Hk Hq. rewrite Hk. cbn [negb].
    unfold new_BraveSearch, Toolkit_init, bind, emit, ret.
    match goal with
    | |- context [brave_search _ _ ?s _ _ _ _ ?t] =>
        destruct (run_searches s query max_results country search_lang t)
          as [Hs Hc]
    end.
    rewrite Hs, Hc, Hq, searches_app, clients_created_app. cbn.
    rewrite List.app_nil_r. split; reflexivity.
  - intros Hk. rewrite Hk. reflexivity.
Qed.

End Further.

(** ** Construction *)

(** X5. A non-empty [api_key] argument settles the key by itself: the
    environment is not consulted, so construction does the same in every
    environment. *)
Theorem explicit_key_ignores_environment
    (environ environ' : string -> option string) (c : ascii) (k : string)
    (fixed_max_results : option Z) (fixed_language : option string)
    (wait_time retries : Z) (tr : list event) :
  __init__ environ (Some (String c k)) fixed_max_results fixed_language wait_time
    retries tr
  = __init__ environ' (Some (String c k)) fixed_max_results fixed_language wait_time
      retries tr
  /\ exists self,
       __init__ environ (Some (String c k)) fixed_max_results fixed_language
         wait_time retries tr
       = (Returns self,
          (tr ++ [NewClient (mk_client (Some (String c k)) wait_time retries)])%list)
       /\ api_key self = Some (String c k).
Proof.
  split; [reflexivity|]. eexists. split; [cbv; reflexivity | reflexivity].
Qed.

(** X6. A [BRAVE_API_KEY] that is set to the empty string counts as not
    set: without a non-empty argument construction raises [ValueError]
    with the message that asks for the variable, and records nothing. *)
Theorem empty_environment_key_is_rejected
    (environ : string -> option string) (key_argument : option string)
    (fixed_max_results : option Z) (fixed_language : option string)
    (wait_time retries : Z) (tr : list event) :
  key_argument = None \/ key_argument = Some "" ->
  environ "BRAVE_API_KEY" = None \/ environ "BRAVE_API_KEY" = Some "" ->
  __init__ environ key_argument fixed_max_results fixed_language wait_time retries tr
  = (Raises (mk_exn ValueError
       "BRAVE_API_KEY is required. Please set the BRAVE_API_KEY environment variable."),
     tr).
Proof.
  intros Hk He. unfold __init__, py_or, getenv.
  destruct Hk as [-> | ->]; destruct He as [-> | ->]; reflexivity.
Qed.

(** X7. Every toolkit that construction returns is well formed: its key
    is a non-empty string, its client was created with that key and the
    given wait time and retry count, it holds the fixed settings as given,
    and it is registered under the name [brave_search] with the one tool
    [brave_search]. Construction creates that one client and runs no
    search. *)
Theorem constructed_toolkit_is_well_formed
    (environ : string -> option string) (key_argument : option string)
    (fixed_max : option Z) (fixed_lang : option string)
    (wait_time retries : Z) (tr tr' : list event) (self : BraveSearchTools) :
  __init__ environ key_argument fixed_max fixed_lang wait_time retries tr
  = (Returns self, tr') ->
  (exists c k, api_key self = Some (String c k))
  /\ brave_client self = mk_client (api_key self) wait_time retries
  /\ fixed_max_results self = fixed_max
  /\ fixed_language self = fixed_lang
  /\ name self = "brave_search"
  /\ tools self = ["brave_search"]
  /\ tr' = (tr ++ [NewClient (brave_client self)])%list
  /\ searches tr' = searches tr.
Proof.
  unfold __init__.
  destruct (py_or key_argument (getenv environ "BRAVE_API_KEY")) as [[|c k]|] eqn:Hkey;
    cbn [truthy str_truthy negb]; intros H; try discriminate H.
  unfold new_BraveSearch, Toolkit_init, bind, emit, ret in H.
  injection H as <- <-. cbn.
  rewrite searches_app, List.app_nil_r. repeat split; eauto.
Qed.

(** ** Replies *)

(** X8. The reply depends only on the query and on how the client
    answers: not on [max_results], the country, the language, the fixed
    settings of the toolkit or what happened before. In particular the
    results are not cut down to [max_results]. *)
Theorem reply_depends_on_answer_only {Url : Type} (url_str : Url -> string)
    (client_search client_search' :
       BraveSearch -> SearchCall -> outcome (option (SearchResponse Url)))
    (self self' : BraveSearchTools) (query : option string)
    (max_results max_results' : Z) (country country' : string)
    (search_lang search_lang' : string) (tr tr' : list event) :
  client_search (brave_client self)
    (effective_call self query max_results country search_lang)
  = client_search' (brave_client self')
      (effective_call self' query max_results' country' search_lang') ->
  fst (brave_search url_str client_search self query max_results country
         search_lang tr)
  = fst (brave_search url_str client_search' self' query max_results' country'
           search_lang' tr').
Proof.
  intros Hsame. destruct (truthy query) eqn:Hq.
  - destruct (client_search' (brave_client self')
                (effective_call self' query max_results' country' search_lang'))
      as [response|e] eqn:Hc.
    + rewrite (run_returns _ _ _ _ _ _ _ _ _ Hq Hsame).
      rewrite (run_returns _ _ _ _ _ _ _ _ _ Hq Hc). reflexivity.
    + rewrite (run_raises _ _ _ _ _ _ _ _ _ Hq Hsame).
      rewrite (run_raises _ _ _ _ _ _ _ _ _ Hq Hc). cbv zeta.
      destruct (is_BraveSearchAPIError e); [|destruct (is_Exception e)]; reflexivity.
  - rewrite !run_no_query by exact Hq. reflexivity.
Qed.


(** X10. The reply to a failed call does not carry the query: it is
    settled by the class and the message of the error alone, the query
    only goes to the log. *)
Theorem error_reply_omits_query {Url : Type} (url_str : Url -> string)
    (client_search client_search' :
       BraveSearch -> SearchCall -> outcome (option (SearchResponse Url)))
    (self self' : BraveSearchTools) (qs qs' : string)
    (max_results max_results' : Z) (country country' : string)
    (search_lang search_lang' : string) (tr tr' : list event) (e : exn) :
  qs <> "" -> qs' <> "" ->
  client_search (brave_client self)
    (effective_call self (Some qs) max_results country search_lang) = Raises e ->
  client_search' (brave_client self')
    (effective_call self' (Some qs') max_results' country' search_lang') = Raises e ->
  fst (brave_search url_str client_search self (Some qs) max_results country
         search_lang tr)
  = fst (brave_search url_str client_search' self' (Some qs') max_results' country'
           search_lang' tr').
Proof.
  intros Hq Hq' Hc Hc'.
  apply truthy_nonempty in Hq. apply truthy_nonempty in Hq'.
  rewrite (run_raises _ _ _ _ _ _ _ _ _ Hq Hc).
  rewrite (run_raises _ _ _ _ _ _ _ _ _ Hq' Hc'). cbv zeta.
  destruct (is_BraveSearchAPIError e); [|destruct (is_Exception e)]; reflexivity.
Qed.

(** ** Concrete runs of the further properties *)

(** A system exit raised inside the client. *)
Lemma interrupts_are_not_caught_witness :
  fst (brave_search url_text (fails (mk_exn (SystemExiting "SystemExit") "1"))
         sample_tools (Some "rocq") 5 "US" "en" [])
  = Raises (mk_exn (SystemExiting "SystemExit") "1").
Proof.
  apply (interrupts_are_not_caught url_text
           (fails (mk_exn (SystemExiting "SystemExit") "1"))
           sample_tools "rocq" 5 "US" "en" []).
  - discriminate.
  - reflexivity.
  - reflexivity.
Defined.

(** No argument, and the variable set to the empty string. *)
Lemma empty_environment_key_is_rejected_witness :
  __init__ empty_environ None None None 5 3 []
  = (Raises (mk_exn ValueError
       "BRAVE_API_KEY is required. Please set the BRAVE_API_KEY environment variable."),
     []).
Proof.
  apply (empty_environment_key_is_rejected empty_environ None None None 5 3 []).
  - left. reflexivity.
  - right. reflexivity.
Defined.

(** The toolkit built from the environment's key with fixed settings. *)
Lemma constructed_toolkit_is_well_formed_witness :
  (exists c k, api_key environ_tools = Some (String c k))
  /\ brave_client environ_tools = mk_client (api_key environ_tools) 10 2
  /\ fixed_max_results environ_tools = Some 3%Z
  /\ fixed_language environ_tools = Some "fr"
  /\ name environ_tools = "brave_search"
  /\ tools environ_tools = ["brave_search"]
  /\ [NewClient (brave_client environ_tools)]
     = ([] ++ [NewClient (brave_client environ_tools)])%list
  /\ searches [NewClient (brave_client environ_tools)] = searches [].
Proof.
  apply (constructed_toolkit_is_well_formed sample_environ None (Some 3%Z) (Some "fr")
           10 2 [] [NewClient (brave_client environ_tools)] environ_tools).
  reflexivity.
Defined.

(** The text of the two sample results. *)
Lemma reply_is_ascii_witness :
  string_forall (fun c => printable c || Ascii.eqb c newline)
    (Json.dumps (Some 2%nat) sample_payload) = true
  /\ ((truthy (Some "rocq") = false
       \/ exists e, answers sample_response (brave_client sample_tools)
                      (effective_call sample_tools (Some "rocq") 5 "US" "en")
                    = Raises e) ->
      string_forall printable (Json.dumps (Some 2%nat) sample_payload) = true).
Proof.
  apply (reply_is_ascii url_text (answers sample_response) sample_tools (Some "rocq")
           5 "US" "en" []
           (snd (brave_search url_text (answers sample_response) sample_tools
                   (Some "rocq") 5 "US" "en" []))).
  reflexivity.
Defined.

(** The same answer given to two differently configured toolkits. *)
Lemma reply_depends_on_answer_only_witness :
  fst (brave_search url_text (answers sample_response) sample_tools (Some "rocq")
         1 "US" "en" [])
  = fst (brave_search url_text (answers sample_response) falsy_tools (Some "rocq")
           20 "DE" "de" [LogInfo "earlier"]).
Proof.
  apply (reply_depends_on_answer_only url_text (answers sample_response)
           (answers sample_response) sample_tools falsy_tools (Some "rocq")
           1 20 "US" "DE" "en" "de" [] [LogInfo "earlier"]).
  reflexivity.
Defined.


(** The same rate limit met by two different queries. *)
Lemma error_reply_omits_query_witness :
  fst (brave_search url_text (fails (mk_exn BraveSearchAPIError "rate limited"))
         sample_tools (Some "rocq") 5 "US" "en" [])
  = fst (brave_search url_text (fails (mk_exn BraveSearchAPIError "rate limited"))
           sample_tools (Some "brave") 5 "US" "en" []).
Proof.
  apply (error_reply_omits_query url_text
           (fails (mk_exn BraveSearchAPIError "rate limited"))
           (fails (mk_exn BraveSearchAPIError "rate limited"))
           sample_tools sample_tools "rocq" "brave" 5 5 "US" "US" "en" "en" [] []
           (mk_exn BraveSearchAPIError "rate limited")).
  - discriminate.
  - discriminate.
  - reflexivity.
  - reflexivity.
Defined.
